(** * Sofifa merger: the read / merge / save pipeline of [DataManager]

    A shallow embedding of [sofifa-scraper-fc25-merger.pyw] (class
    [DataManager] and the handlers of [MergerGUI]), and the properties
    its specification states about it.

    Layout:
    - [Py]      the Python built-ins and [os.path] functions the code calls;
    - [Frame]   data frames, and [DataFrame.merge] with the checks it makes
                before it joins;
    - [Txt]     the text format of [save] and of the [.txt] branch of [read];
    - [Merger]  the outside world, [DataManager] and its methods;
    - [Gui]     the handlers of [MergerGUI];
    - the theorems. *)

From Stdlib Require Import List Bool Arith ZArith Lia Ascii String.
From Stdlib Require Import Numbers.DecimalString.
From Stdlib Require Import Floats.SpecFloat.
Import ListNotations.

Local Open Scope list_scope.
Local Open Scope string_scope.

(* ================================================================== *)
(** ** Python built-ins *)
(* ================================================================== *)

Module Py.

(** [str.isspace] on one ASCII character: tab, line feed, vertical tab,
    form feed, carriage return, the four separators 0x1c-0x1f and blank. *)
Definition isspace (c : ascii) : bool :=
  let n := nat_of_ascii c in
  (((9 <=? n) && (n <=? 13)) || ((28 <=? n) && (n <=? 32)))%nat.

Fixpoint lstrip (s : string) : string :=
  match s with
  | EmptyString => EmptyString
  | String c s' => if isspace c then lstrip s' else s
  end.

Fixpoint rstrip (s : string) : string :=
  match s with
  | EmptyString => EmptyString
  | String c s' =>
      match rstrip s' with
      | EmptyString => if isspace c then EmptyString else String c EmptyString
      | r => String c r
      end
  end.

(** [s.strip()] *)
Definition strip (s : string) : string := lstrip (rstrip s).

(** [s.split(sep)] for a separator of one character (the code splits on
    ["|"] and on ["."]): every occurrence cuts, empty pieces are kept. *)
Fixpoint split (sep : ascii) (s : string) : list string :=
  match s with
  | EmptyString => [EmptyString]
  | String c s' =>
      if Ascii.eqb c sep then EmptyString :: split sep s'
      else match split sep s' with
           | h :: t => String c h :: t
           | [] => [String c EmptyString]
           end
  end.

(** [sep.join(l)] *)
Fixpoint join (sep : string) (l : list string) : string :=
  match l with
  | [] => EmptyString
  | [x] => x
  | x :: xs => x ++ sep ++ join sep xs
  end.

(** [s.startswith(p)] *)
Definition startswith (s p : string) : bool := String.prefix p s.

(** [s.replace(old, new)] for a non-empty [old]: the occurrences of [old]
    are replaced from left to right, without overlap.  [skip] counts the
    characters of an occurrence that are still to be passed over. *)
Fixpoint replace_from (old new : string) (skip : nat) (s : string) : string :=
  match s with
  | EmptyString => EmptyString
  | String c s' =>
      match skip with
      | S k => replace_from old new k s'
      | O =>
          if String.prefix old s
          then new ++ replace_from old new (String.length old - 1) s'
          else String c (replace_from old new 0 s')
      end
  end.

Definition replace (s old new : string) : string := replace_from old new 0 s.

Definition lower_char (c : ascii) : ascii :=
  let n := nat_of_ascii c in
  if ((65 <=? n) && (n <=? 90))%nat then ascii_of_nat (n + 32) else c.

(** [s.lower()] on ASCII text. *)
Fixpoint lower (s : string) : string :=
  match s with
  | EmptyString => EmptyString
  | String c s' => String (lower_char c) (lower s')
  end.

(** [s.rfind(c)]: the highest index of [c] in [s], or [-1]. *)
Fixpoint rfind_from (c : ascii) (s : string) (i : Z) (found : Z) : Z :=
  match s with
  | EmptyString => found
  | String d s' => rfind_from c s' (i + 1) (if Ascii.eqb d c then i else found)
  end.

Definition rfind (s : string) (c : ascii) : Z := rfind_from c s 0 (-1).

(** The slices [s[i:]] and [s[:i]] for [0 <= i]. *)
Definition slice_from (s : string) (i : Z) : string :=
  String.substring (Z.to_nat i) (String.length s - Z.to_nat i) s.

Definition slice_to (s : string) (i : Z) : string :=
  String.substring 0 (Z.to_nat i) s.

(** [str(n)] of an integer. *)
Definition str_int (z : Z) : string := NilEmpty.string_of_int (Z.to_int z).

(** [repr(s)] of a string: quoted with ['], or with the double quote when
    the text holds a ['] and no double quote; backslash, the quote in use
    and the usual control characters are escaped. *)
Definition dquote : ascii := ascii_of_nat 34.
Definition squote : ascii := ascii_of_nat 39.
Definition backslash : ascii := ascii_of_nat 92.

Fixpoint occurs (c : ascii) (s : string) : bool :=
  match s with
  | EmptyString => false
  | String d s' => Ascii.eqb d c || occurs c s'
  end.

Fixpoint repr_body (q : ascii) (s : string) : string :=
  match s with
  | EmptyString => EmptyString
  | String c s' =>
      let rest := repr_body q s' in
      if Ascii.eqb c backslash then String backslash (String backslash rest)
      else if Ascii.eqb c q then String backslash (String q rest)
      else if Ascii.eqb c (ascii_of_nat 10) then String backslash (String "n" rest)
      else if Ascii.eqb c (ascii_of_nat 13) then String backslash (String "r" rest)
      else if Ascii.eqb c (ascii_of_nat 9) then String backslash (String "t" rest)
      else String c rest
  end.

Definition repr (s : string) : string :=
  let q := if occurs squote s && negb (occurs dquote s) then dquote else squote in
  String q (repr_body q s ++ String q EmptyString).

(** *** [os.path] (the POSIX flavour: [/] separates, [.] starts an extension) *)

Definition sep : ascii := "/".
Definition extsep : ascii := ".".

(** The loop of [genericpath._splitext] that skips the leading dots of the
    file name: [Some] as soon as a character that is no dot is met at an
    index below [dotIndex], [None] when the loop runs out. [n] bounds the
    iterations left. *)
Fixpoint splitext_loop (p : string) (filenameIndex dotIndex : Z) (n : nat)
  : option (string * string) :=
  match n with
  | O => None
  | S n' =>
      if (filenameIndex <? dotIndex)%Z then
        match String.get (Z.to_nat filenameIndex) p with
        | Some c =>
            if Ascii.eqb c extsep
            then splitext_loop p (filenameIndex + 1) dotIndex n'
            else Some (slice_to p dotIndex, slice_from p dotIndex)
        | None => None
        end
      else None
  end.

(** [os.path.splitext(p)] *)
Definition splitext (p : string) : string * string :=
  let sepIndex := rfind p sep in
  let dotIndex := rfind p extsep in
  if (dotIndex >? sepIndex)%Z then
    match splitext_loop p (sepIndex + 1) dotIndex (String.length p) with
    | Some r => r
    | None => (p, EmptyString)
    end
  else (p, EmptyString).

(** [os.path.basename(p)] *)
Definition basename (p : string) : string := slice_from p (rfind p sep + 1).

(** [os.path.join(a, b)] *)
Definition path_join (a b : string) : string :=
  if startswith b "/" then b
  else if String.eqb a EmptyString then b
  else match String.get (String.length a - 1) a with
       | Some c => if Ascii.eqb c sep then a ++ b else a ++ "/" ++ b
       | None => a ++ "/" ++ b
       end.

(** [d.strftime("%Y%m%d")]: four digits of year, two of month, two of day. *)
Record date := { year : nat; month : nat; day : nat }.

Definition str_nat (n : nat) : string := NilEmpty.string_of_uint (Nat.to_uint n).

Fixpoint zeros (n : nat) : string :=
  match n with O => EmptyString | S k => String "0" (zeros k) end.

Definition zfill (width n : nat) : string :=
  let s := str_nat n in zeros (width - String.length s) ++ s.

Definition strftime_Ymd (d : date) : string :=
  zfill 4 (year d) ++ zfill 2 (month d) ++ zfill 2 (day d).

End Py.

(* ================================================================== *)
(** ** Exceptions *)
(* ================================================================== *)

(** The exceptions the program raises or meets, each with the argument it
    was built from; [LibraryError] stands for any other [Exception] that
    comes out of a call ([MergeError], [TypeError], [OSError], ...), with
    its class name and its [str]. *)
Inductive exn : Type :=
| FileNotFoundError (msg : string)
| ValueError (msg : string)
| KeyError (arg : string)
| EmptyDataError (msg : string)
| LibraryError (cls : string) (text : string).

(** [str(e)]: the message, except for [KeyError], whose [str] is the
    [repr] of its argument. *)
Definition exn_str (e : exn) : string :=
  match e with
  | FileNotFoundError m => m
  | ValueError m => m
  | KeyError a => Py.repr a
  | EmptyDataError m => m
  | LibraryError _ t => t
  end.

(** A call either returns a value or raises. *)
Inductive result (A : Type) : Type :=
| Ok (a : A)
| Raise (e : exn).
Arguments Ok {A} a.
Arguments Raise {A} e.

(* ================================================================== *)
(** ** Data frames and [DataFrame.merge] *)
(* ================================================================== *)

(* ================================================================== *)
(** ** Data frames and [DataFrame.merge] *)
(* ================================================================== *)

Module Frame.

(** A cell holds a null (pandas' NaN / None), an integer of [int64], a
    float or a text.  A float is an IEEE 754 double, as [SpecFloat]
    describes it; its NaN is a null as well. *)
Inductive cell : Type :=
| Null
| Int (z : Z)
| Float (f : spec_float)
| Str (s : string).

Definition is_nan (f : spec_float) : bool :=
  match f with S754_nan => true | _ => false end.

Definition is_int (c : cell) : bool :=
  match c with Int _ => true | _ => false end.

Definition is_str (c : cell) : bool :=
  match c with Str _ => true | _ => false end.

(** [float(z)]: the double nearest to an integer, ties to even. *)
Definition float_of_Z (z : Z) : spec_float := binary_normalize 53 1024 z 0 false.

(** A value as a [float64] column stores it. *)
Definition to_float (c : cell) : cell :=
  match c with
  | Int z => Float (float_of_Z z)
  | _ => c
  end.

(** The float [f] and the integer [z] are the same number. *)
Definition float_is_Z (f : spec_float) (z : Z) : bool :=
  match f with
  | S754_zero _ => Z.eqb z 0
  | S754_finite s m e =>
      let v := if s then Z.neg m else Z.pos m in
      if (0 <=? e)%Z then Z.eqb z (v * 2 ^ e) else Z.eqb (z * 2 ^ (- e)) v
  | _ => false
  end.

(** Python's [==] between two values, with the nulls taken as one value,
    the way the join treats them. *)
Definition cell_eqb (a b : cell) : bool :=
  match a, b with
  | Null, Null => true
  | Null, Float f => is_nan f
  | Float f, Null => is_nan f
  | Int x, Int y => Z.eqb x y
  | Int x, Float f => float_is_Z f x
  | Float f, Int x => float_is_Z f x
  | Float f, Float g => SFeqb f g || (is_nan f && is_nan g)
  | Str s, Str t => String.eqb s t
  | _, _ => false
  end.

(** A frame: the column labels in order, the rows as positional tuples
    across the columns, and whether pandas holds the key column of the
    joins as an [object] column whatever its cells, as [merge] can leave
    it. *)
Record DataFrame : Type := {
  columns : list string;
  rows : list (list cell);
  key_as_object : bool
}.

(** A frame as the parsers load it. *)
Definition frame (cols : list string) (rs : list (list cell)) : DataFrame :=
  {| columns := cols; rows := rs; key_as_object := false |}.

(** Every row has one cell per column. *)
Definition rectangular (df : DataFrame) : Prop :=
  Forall (fun r => List.length r = List.length (columns df)) (rows df).

(** [name in df.columns] *)
Definition has_column (name : string) (df : DataFrame) : bool :=
  existsb (String.eqb name) (columns df).

(** Position of a label among the columns. *)
Fixpoint index_of (name : string) (cols : list string) : option nat :=
  match cols with
  | [] => None
  | c :: cols' =>
      if String.eqb name c then Some 0
      else match index_of name cols' with
           | Some i => Some (S i)
           | None => None
           end
  end.

(** The cell of a row under the column at position [k]. *)
Definition at_col (k : nat) (row : list cell) : cell := nth k row Null.

(** The column at position [k], top to bottom. *)
Definition column (k : nat) (rs : list (list cell)) : list cell := map (at_col k) rs.

(** A tuple without its position [k]. *)
Definition without {A : Type} (k : nat) (l : list A) : list A :=
  firstn k l ++ skipn (S k) l.

Definition mem (name : string) (cols : list string) : bool :=
  existsb (String.eqb name) cols.

(** *** The dtype of a column

    pandas keeps one dtype per column.  In a frame as the parsers load it
    the dtype follows from the cells: [object] once a text is among them,
    [int64] when all of them are integers, [float64] otherwise; in a
    [float64] column an integer stands for its float. *)
Inductive dtype : Type := int64 | float64 | object.

Definition dtype_name (d : dtype) : string :=
  match d with
  | int64 => "int64"
  | float64 => "float64"
  | object => "object"
  end.

Definition column_dtype (cells : list cell) : dtype :=
  if existsb is_str cells then object
  else if forallb is_int cells then int64
  else float64.

Definition is_object (d : dtype) : bool :=
  match d with object => true | _ => false end.

(** The dtype of the key column, at position [k] of the frame. *)
Definition key_dtype (k : nat) (df : DataFrame) : dtype :=
  if key_as_object df then object else column_dtype (column k (rows df)).

(** *** The checks [merge] makes before it joins *)

(** The key looked up on one side ([_get_label_or_level_values]): the
    label has to be there, and to be there once. *)
Definition count (name : string) (cols : list string) : nat :=
  List.length (filter (String.eqb name) cols).

Definition not_unique (key : string) : exn :=
  ValueError ("The column label '" ++ key ++ "' is not unique.").

Definition key_position (key : string) (cols : list string) : result nat :=
  match index_of key cols with
  | None => Raise (KeyError key)
  | Some k => if (1 <? count key cols)%nat then Raise (not_unique key) else Ok k
  end.

Definition is_empty {A : Type} (l : list A) : bool :=
  match l with [] => true | _ => false end.

(** A column of texts, as far as the check of the key dtypes goes: there
    is a text in it and no integer. *)
Definition text_like (cells : list cell) : bool :=
  existsb is_str cells && negb (existsb is_int cells).

(** The dtypes of the two key columns ([_maybe_coerce_merge_keys]): a
    numeric key column is not joined with a key column of texts.  The
    check is passed over when one of the frames has no row, and an
    [object] column with an integer in it is let through. *)
Section Keys.

(** Two frames and the positions of their key columns. *)
Variables left right : DataFrame.
Variables kl kr : nat.

Let lk : list cell := column kl (rows left).
Let rk : list cell := column kr (rows right).
Let dl : dtype := key_dtype kl left.
Let dr : dtype := key_dtype kr right.

Definition incompatible : bool :=
  (negb (is_empty lk) && negb (is_object dl) && text_like rk)
  || (text_like lk && negb (is_empty rk) && negb (is_object dr)).

Definition merge_on_mismatch (key : string) : exn :=
  ValueError ("You are trying to merge on " ++ dtype_name dl
              ++ " and " ++ dtype_name dr ++ " columns for key '"
              ++ key ++ "'. If you wish to proceed you should use pd.concat").

(** A numeric key column that is let through against an [object] one, or
    the other way round: pandas goes on with the key column of [left] as
    an [object] column. *)
Definition coerced : bool :=
  negb (is_empty lk) && negb (is_empty rk) && xorb (is_object dl) (is_object dr).

End Keys.

(** The labels of the result ([_items_overlap_with_suffix]): the labels
    of [left], then those of [right] but the key; a label that both lists
    carry gets pandas' default suffixes, [_x] on the left and [_y] on the
    right.  A label that the suffix turns into a second occurrence of a
    label of its side is refused. *)
Definition suffixed (others : list string) (suffix c : string) : string :=
  if mem c others then c ++ suffix else c.

Fixpoint duplicated_from (seen l : list string) : list bool :=
  match l with
  | [] => []
  | x :: l' => mem x seen :: duplicated_from (x :: seen) l'
  end.

(** [Index.duplicated()]: the occurrences of a label after its first. *)
Definition duplicated (l : list string) : list bool := duplicated_from [] l.

Fixpoint select {A : Type} (flags : list bool) (l : list A) : list A :=
  match flags, l with
  | f :: flags', x :: l' => if f then x :: select flags' l' else select flags' l'
  | _, _ => []
  end.

(** [renamed[renamed.duplicated() & ~labels.duplicated()]] *)
Definition suffix_dups (labels renamed : list string) : list string :=
  select (map (fun p => fst p && negb (snd p))
              (combine (duplicated renamed) (duplicated labels)))
         renamed.

Fixpoint dedup (l : list string) : list string :=
  match l with
  | [] => []
  | x :: l' => if mem x l' then dedup l' else x :: dedup l'
  end.

(** The [MergeError]; its message shows the labels as a Python set, here
    in the order of the columns. *)
Definition suffix_error (dups : list string) : exn :=
  LibraryError "MergeError"
    ("Passing 'suffixes' which cause duplicate columns {"
     ++ Py.join ", " (map Py.repr (dedup dups)) ++ "} is not allowed.").

(** *** The rows of a left join *)

(** The key values as they are compared: a [float64] column holds floats,
    and an [int64] column joined with a [float64] column is compared as
    floats. *)
Definition key_value (own other : dtype) (c : cell) : cell :=
  match own, other with
  | float64, _ => to_float c
  | int64, float64 => to_float c
  | _, _ => c
  end.

Definition same_key (dl dr : dtype) (a b : cell) : bool :=
  cell_eqb (key_value dl dr a) (key_value dr dl b).

(** The cells of a right row as they enter the result: as they are, or,
    when the nulls of a row without a match enter the columns, with the
    integers of every numeric column as floats. *)
Fixpoint upcast (numeric_column : list bool) (row : list cell) : list cell :=
  match numeric_column, row with
  | f :: fs, c :: row' => (if f then to_float c else c) :: upcast fs row'
  | _, _ => row
  end.

Section Join.

(** The comparison of a left key with a right key, the conversion of the
    right cells, the positions of the key and the number of columns that
    come from the right. *)
Variable same : cell -> cell -> bool.
Variable conv : list cell -> list cell.
Variables kl kr width : nat.

(** The rows of the right frame that match the left row [l], in the order
    of the right frame, each already glued to [l]. *)
Fixpoint matches (l : list cell) (right : list (list cell)) : list (list cell) :=
  match right with
  | [] => []
  | r :: right' =>
      if same (at_col kl l) (at_col kr r)
      then (l ++ conv (without kr r))%list :: matches l right'
      else matches l right'
  end.

(** The left rows in their order; a left row yields one row per match, or
    one row padded with [width] nulls. *)
Fixpoint join_rows (left right : list (list cell)) : list (list cell) :=
  match left with
  | [] => []
  | l :: left' =>
      match matches l right with
      | [] => (l ++ repeat Null width)%list :: join_rows left' right
      | m :: ms => (m :: ms ++ join_rows left' right)%list
      end
  end.

(** Some left row has no match. *)
Definition unmatched (left right : list (list cell)) : bool :=
  existsb (fun l => negb (existsb (fun r => same (at_col kl l) (at_col kr r)) right))
          left.

End Join.

(** The comparison of the keys of two frames whose key columns are at
    [kl] and [kr]. *)
Definition key_eqb (kl kr : nat) (left right : DataFrame) : cell -> cell -> bool :=
  same_key (key_dtype kl left) (key_dtype kr right).

(** Which of the columns that [right] contributes are numeric. *)
Definition numeric_columns (kr : nat) (right : DataFrame) : list bool :=
  map (fun j => negb (is_object (column_dtype (column j (map (without kr) (rows right))))))
      (seq 0 (List.length (columns right) - 1)).

(** The conversion of the cells that [right] contributes. *)
Definition conversion (kl kr : nat) (left right : DataFrame) : list cell -> list cell :=
  if unmatched (key_eqb kl kr left right) kl kr (rows left) (rows right)
  then upcast (numeric_columns kr right)
  else fun row => row.

Definition merged_columns (kr : nat) (lcols rcols : list string) : list string :=
  (map (suffixed (without kr rcols) "_x") lcols
   ++ map (suffixed lcols "_y") (without kr rcols))%list.

(** The labels that the suffixes turn into duplicates, [lcols] being the
    labels of [left] and [rcols] those of [right] but the key. *)
Definition clashes (lcols rcols : list string) : list string :=
  (suffix_dups lcols (map (suffixed rcols "_x") lcols)
   ++ suffix_dups rcols (map (suffixed lcols "_y") rcols))%list.

(** [left.merge(right, on=key, how="left")], the pandas call [merge_all]
    makes: the key is looked up in [right], then in [left]; the dtypes of
    the two key columns are compared; the labels of the result are made;
    the rows are joined.  The key column of the result is that of [left]. *)
Definition merge (left right : DataFrame) (key : string) : result DataFrame :=
  match key_position key (columns right) with
  | Raise e => Raise e
  | Ok kr =>
      match key_position key (columns left) with
      | Raise e => Raise e
      | Ok kl =>
          if incompatible left right kl kr
          then Raise (merge_on_mismatch left right kl kr key)
          else
            match clashes (columns left) (without kr (columns right)) with
            | d :: dups => Raise (suffix_error (d :: dups))
            | [] =>
                Ok {| columns := merged_columns kr (columns left) (columns right);
                      rows := join_rows (key_eqb kl kr left right)
                                (conversion kl kr left right)
                                kl kr (List.length (columns right) - 1)
                                (rows left) (rows right);
                      key_as_object := key_as_object left
                                       || coerced left right kl kr |}
            end
      end
  end.

(** *** The left join in the words of the specification

    Start from the accumulator; every row of it is kept; each right row
    with the same ID contributes its non-key columns, appended; with no
    such right row the appended columns are null; with several of them
    there is one output row per match.  "The same ID" is the comparison
    [key_eqb] of the two key columns, and the appended cells pass through
    [conversion]. *)
Definition spec_matching (kl kr : nat) (acc right : DataFrame) (a : list cell)
  : list (list cell) :=
  filter (fun b => key_eqb kl kr acc right (at_col kl a) (at_col kr b)) (rows right).

Definition spec_block (kl kr : nat) (acc right : DataFrame) (a : list cell)
  : list (list cell) :=
  match spec_matching kl kr acc right a with
  | [] => [(a ++ repeat Null (List.length (columns right) - 1))%list]
  | bs => map (fun b => (a ++ conversion kl kr acc right (without kr b))%list) bs
  end.

Definition spec_left_join (key : string) (acc right : DataFrame) : DataFrame :=
  match index_of key (columns acc), index_of key (columns right) with
  | Some kl, Some kr =>
      {| columns := merged_columns kr (columns acc) (columns right);
         rows := flat_map (spec_block kl kr acc right) (rows acc);
         key_as_object := key_as_object acc || coerced acc right kl kr |}
  | _, _ => acc
  end.

End Frame.

Import Frame.

(** The example of the specification: players and ratings. *)
Definition players_a : DataFrame :=
  frame ["ID"; "Name"] [[Int 1; Str "X"]; [Int 2; Str "Y"]].
Definition players_b : DataFrame :=
  frame ["ID"; "Rating"] [[Int 1; Int 88]].

(* ================================================================== *)
(** ** The text format *)
(* ================================================================== *)

Module Txt.

Definition LF : ascii := ascii_of_nat 10.
Definition bar : ascii := "|".

(** *** Writing: the text [save] is to put into the [.txt] file *)

(** The dtypes of the columns of a frame whose key column is [key]. *)
Definition dtypes (key : string) (df : DataFrame) : list dtype :=
  map (fun j => if String.eqb (nth j (columns df) EmptyString) key
                then key_dtype j df
                else column_dtype (column j (rows df)))
      (seq 0 (List.length (columns df))).

Fixpoint stored (ds : list dtype) (row : list cell) : list cell :=
  match ds, row with
  | d :: ds', c :: row' =>
      (match d with float64 => to_float c | _ => c end) :: stored ds' row'
  | _, _ => row
  end.

(** [row.values] for a row of [merged.iterrows()]: the row comes as a
    Series, with one dtype for its cells; in a frame of numeric columns,
    one of them [float64], every integer of the row is a float. *)
Definition values (key : string) (df : DataFrame) (row : list cell) : list cell :=
  let ds := dtypes key df in
  if existsb is_object ds then stored ds row
  else if forallb (fun d => match d with int64 => true | _ => false end) ds then row
  else map to_float row.

Definition line (fields : list string) : string :=
  Py.join " | " fields ++ String LF EmptyString.

Section Writer.

(** [str(v)] of a cell value, the key column and the frame to write. *)
Variable str : cell -> string.
Variable key : string.
Variable df : DataFrame.

(** The [for] loop over [merged.iterrows()]: one [f.write] per row. *)
Fixpoint write_rows (rs : list (list cell)) : string :=
  match rs with
  | [] => EmptyString
  | r :: rs' => line (map str (values key df r)) ++ write_rows rs'
  end.

Definition render : string := line (columns df) ++ write_rows (rows df).

End Writer.

(** *** Reading: what the [.txt] branch of [read] makes of a text *)

(** [f.readline()]: the text up to the first line feed, line feed included. *)
Fixpoint readline (text : string) : string :=
  match text with
  | EmptyString => EmptyString
  | String c t =>
      if Ascii.eqb c LF then String c EmptyString else String c (readline t)
  end.

(** [cols = [c.strip() for c in header.split("|")]] with
    [header = f.readline().strip()]. *)
Definition names (text : string) : list string :=
  map Py.strip (Py.split bar (Py.strip (readline text))).

(** A line [read_csv] passes over: nothing on it but blanks and tabs. *)
Fixpoint blank (l : string) : bool :=
  match l with
  | EmptyString => true
  | String c l' =>
      (Ascii.eqb c " " || Ascii.eqb c (ascii_of_nat 9)) && blank l'
  end.

(** The records [read_csv(path, sep="|", skiprows=[0], ...)] tokenizes:
    the first line is skipped, blank lines are passed over, every other
    line is cut at each [|]; nothing is trimmed.  (Texts with quote
    characters or carriage returns, which the tokenizer treats specially,
    are outside this description.)  What pandas builds from the names and
    the records, dtype by dtype, is left to the world. *)
Definition records (text : string) : list (list string) :=
  map (Py.split bar)
      (filter (fun l => negb (blank l)) (tl (Py.split LF text))).

End Txt.

(* ================================================================== *)
(** ** The program *)
(* ================================================================== *)

Module Merger.

(** What [save] puts into a file: the frame handed to [to_excel], or the
    text written line by line. *)
Inductive content : Type :=
| Excel (df : DataFrame)
| Text (text : string).

(** *** The outside world

    What the program asks of the file system, of pandas' parsers, of
    Python and of the clock.  The world answers for the files the user
    picks; what [save] creates is kept apart, on the [disk] of the
    machine below.  [write_error p c] is the exception the creation of
    the file [p] with the content [c] runs into, if any. *)
Record World : Type := {
  isfile : string -> bool;                       (* os.path.isfile *)
  isdir : string -> bool;                        (* os.path.isdir *)
  read_excel : string -> result DataFrame;      (* pd.read_excel(path) *)
  read_json : string -> result DataFrame;       (* pd.read_json(path, orient="records") *)
  open_text : string -> result string;          (* the text open(path) gives *)
  build_frame : list string -> list (list string) -> result DataFrame;
                                                 (* read_csv, once the records are tokenized *)
  write_error : string -> content -> option exn;
  str_value : cell -> string;                    (* str(v) of a cell value *)
  today : Py.date                                (* datetime.now() *)
}.

(** *** [DataManager.read] *)

(** [pd.read_csv(path, sep="|", skiprows=[0], names=cols)] *)
Definition read_csv (W : World) (path : string) (cols : list string)
  : result DataFrame :=
  match open_text W path with
  | Ok text => build_frame W cols (Txt.records text)
  | Raise e => Raise e
  end.

(** The body of the [try]. *)
Definition read_try (W : World) (path ext : string) : result DataFrame :=
  if String.eqb ext ".xlsx" then read_excel W path
  else if String.eqb ext ".json" then read_json W path
  else if String.eqb ext ".txt" then
    match open_text W path with
    | Ok text => read_csv W path (Txt.names text)
    | Raise e => Raise e
    end
  else Raise (ValueError ("Format '" ++ ext ++ "' not supported.")).

(** The two [except] clauses, in their order: [EmptyDataError] first, any
    other [Exception] second. *)
Definition read_except (e : exn) : exn :=
  match e with
  | EmptyDataError _ => ValueError "File empty or unreadable."
  | _ => ValueError ("Error reading file: " ++ exn_str e)
  end.

Definition read (W : World) (path : string) : result DataFrame :=
  if negb (isfile W path)
  then Raise (FileNotFoundError ("File not found: " ++ path))
  else
    let ext := Py.lower (snd (Py.splitext path)) in
    match read_try W path ext with
    | Ok df => Ok df
    | Raise e => Raise (read_except e)
    end.

(** *** The object and the disk *)

Definition MAX_FILES : nat := 2.
Definition REQUIRED_COL : string := "ID".

Record DataManager : Type := {
  dfs : list DataFrame;
  paths : list string;
  team_name : string
}.

(** [DataManager()] *)
Definition init : DataManager := {| dfs := []; paths := []; team_name := "" |}.

(** The state the methods run in: the object, and the output files on
    the disk, one entry per path. *)
Record Machine : Type := {
  self : DataManager;
  disk : list (string * content)
}.

(** A file created under [path]: a file that is there already is
    replaced. *)
Fixpoint store (path : string) (c : content) (files : list (string * content))
  : list (string * content) :=
  match files with
  | [] => [(path, c)]
  | (p, c') :: files' =>
      if String.eqb p path then (path, c) :: files'
      else (p, c') :: store path c files'
  end.

(** The content of the file under [path]. *)
Fixpoint file (path : string) (files : list (string * content)) : option content :=
  match files with
  | [] => None
  | (p, c) :: files' => if String.eqb p path then Some c else file path files'
  end.

(** *** Methods as state transformers that may raise *)

Definition M (A : Type) : Type := Machine -> result A * Machine.

Definition ret {A : Type} (a : A) : M A := fun m => (Ok a, m).

Definition raise {A : Type} (e : exn) : M A := fun m => (Raise e, m).

Definition bind {A B : Type} (c : M A) (k : A -> M B) : M B :=
  fun m =>
    match c m with
    | (Ok a, m') => k a m'
    | (Raise e, m') => (Raise e, m')
    end.

Definition lift {A : Type} (r : result A) : M A :=
  match r with
  | Ok a => ret a
  | Raise e => raise e
  end.

Definition get : M DataManager := fun m => (Ok (self m), m).

Definition put (d : DataManager) : M unit :=
  fun m => (Ok tt, {| self := d; disk := disk m |}).

Declare Scope method_scope.
Delimit Scope method_scope with method.
Notation "x <- c ;; k" := (bind c (fun x => k))
  (at level 61, c at next level, right associativity) : method_scope.
Notation "c ;; k" := (bind c (fun _ => k))
  (at level 61, right associativity) : method_scope.
Local Open Scope method_scope.

(** [self.dfs.append(df)] *)
Definition dfs_append (df : DataFrame) : M unit :=
  d <- get ;;
  put {| dfs := (dfs d ++ [df])%list; paths := paths d; team_name := team_name d |}.

(** [self.paths.append(path)] *)
Definition paths_append (path : string) : M unit :=
  d <- get ;;
  put {| dfs := dfs d; paths := (paths d ++ [path])%list; team_name := team_name d |}.

(** [self.team_name = name] *)
Definition set_team_name (name : string) : M unit :=
  d <- get ;;
  put {| dfs := dfs d; paths := paths d; team_name := name |}.

(** The creation of one output file. *)
Definition write (W : World) (path : string) (c : content) : M unit :=
  fun m =>
    match write_error W path c with
    | Some e => (Raise e, m)
    | None => (Ok tt, {| self := self m; disk := store path c (disk m) |})
    end.

(** [df.to_json(path, orient="records", indent=2, force_ascii=False,
    encoding='utf-8')]: [to_json] has no parameter [encoding], so the
    call raises a [TypeError] before a file is opened. *)
Definition unexpected_encoding : exn :=
  LibraryError "TypeError"
    "NDFrame.to_json() got an unexpected keyword argument 'encoding'".

Definition to_json (path : string) (df : DataFrame) : M unit :=
  raise unexpected_encoding.

(** *** [DataManager.merge_all] *)

(** The [for] loop over [self.dfs[1:]]. *)
Fixpoint merge_loop (merged : DataFrame) (rest : list DataFrame)
  : result DataFrame :=
  match rest with
  | [] => Ok merged
  | df :: rest' =>
      match merge merged df REQUIRED_COL with
      | Ok merged' => merge_loop merged' rest'
      | Raise e => Raise e
      end
  end.

Definition merge_all : M DataFrame :=
  d <- get ;;
  match dfs d with
  | [] => raise (ValueError "No files to merge.")
  | first :: rest => lift (merge_loop first rest)
  end.

(** *** [DataManager.save] *)

Definition save (W : World) (folder : string) : M unit :=
  if negb (isdir W folder)
  then raise (FileNotFoundError "Invalid output folder.")
  else
    merged <- merge_all ;;
    d <- get ;;
    let date_str := Py.strftime_Ymd (today W) in
    let base := Py.path_join folder ("Data_" ++ team_name d ++ "_" ++ date_str) in
    write W (base ++ ".xlsx") (Excel merged) ;;
    to_json (base ++ ".json") merged ;;
    write W (base ++ ".txt") (Text (Txt.render (str_value W) REQUIRED_COL merged)).

(** *** [DataManager.extract_team_name] *)

Definition PREFIX : string := "SCRIPT_1_".

Definition team_of_basename (base : string) : string :=
  if Py.startswith base PREFIX
  then hd EmptyString (Py.split "." (Py.replace base PREFIX ""))
  else fst (Py.splitext base).

Definition extract_team_name (path : string) : string :=
  team_of_basename (Py.basename path).

(** *** [DataManager.add_file] *)

Definition add_file (W : World) (path : string) : M unit :=
  df <- lift (read W path) ;;
  if negb (has_column REQUIRED_COL df)
  then raise (KeyError ("Column '" ++ REQUIRED_COL ++ "' not found."))
  else
    dfs_append df ;;
    paths_append path ;;
    d <- get ;;
    if String.eqb (team_name d) ""
    then set_team_name (extract_team_name path)
    else ret tt.

(** *** The part of [MergerGUI.reset_all] that acts on the [DataManager] *)

Definition reset_all : M unit :=
  d <- get ;;
  put {| dfs := []; paths := paths d; team_name := team_name d |} ;;
  d <- get ;;
  put {| dfs := dfs d; paths := []; team_name := team_name d |} ;;
  set_team_name "".

(** *** The error kinds of the specification, as the code raises them *)

Definition NotFound (path : string) : exn := FileNotFoundError ("File not found: " ++ path).
Definition UnsupportedFormat (ext : string) : exn :=
  ValueError ("Format '" ++ ext ++ "' not supported.").
Definition EmptyOrUnreadable : exn := ValueError "File empty or unreadable.".
Definition ReadError (cause : string) : exn := ValueError ("Error reading file: " ++ cause).
Definition MissingKeyColumn : exn := KeyError "Column 'ID' not found.".
Definition NoFilesToMerge : exn := ValueError "No files to merge.".
Definition InvalidOutputFolder : exn := FileNotFoundError "Invalid output folder.".

(** *** The calls of the presentation layer, one after another

    [choose_file] and [_do_merge] catch whatever a call raises, so a
    failed call passes the state it left behind on to the next one. *)
Inductive call : Type :=
| AddFile (path : string)
| ResetAll
| MergeAll
| Save (folder : string).

Definition discard {A : Type} (c : M A) : Machine -> Machine := fun m => snd (c m).

Definition step (W : World) (m : Machine) (c : call) : Machine :=
  match c with
  | AddFile path => discard (add_file W path) m
  | ResetAll => discard reset_all m
  | MergeAll => discard merge_all m
  | Save folder => discard (save W folder) m
  end.

Definition run (W : World) (calls : list call) (m : Machine) : Machine :=
  fold_left (step W) calls m.

Definition fresh : Machine := {| self := init; disk := [] |}.

End Merger.

Import Merger.

(* ================================================================== *)
(** ** A small world for the examples *)
(* ================================================================== *)

Definition no_id : DataFrame :=
  frame ["Name"; "Rating"] [[Str "X"; Int 88]].

(** A table whose IDs are texts. *)
Definition text_ids : DataFrame :=
  frame ["ID"; "Club"] [[Str "7"; Str "Ajax"]].

(** A table whose ID column mixes integers and texts. *)
Definition mixed_ids : DataFrame :=
  frame ["ID"; "Pos"] [[Int 1; Str "GK"]; [Str "a"; Str "ST"]].

Definition club_ratings : DataFrame :=
  frame ["Club"; "ID"; "Rating"] [[Str "a"; Int 1; Int 3]].

Definition unreadable (p : string) : result DataFrame :=
  Raise (LibraryError "OSError" ("cannot read " ++ p)).

(** [str] of the values of the examples; their floats hold whole numbers
    of a few digits, written as the number, then [.0]. *)
Definition whole_float_str (f : spec_float) : string :=
  match f with
  | S754_nan => "nan"
  | S754_infinity s => if s then "-inf" else "inf"
  | S754_zero s => if s then "-0.0" else "0.0"
  | S754_finite s m e =>
      (if s then "-" else "") ++ Py.str_int (Z.shiftl (Z.pos m) e) ++ ".0"
  end.

Definition str_example (c : cell) : string :=
  match c with
  | Null => "nan"
  | Int z => Py.str_int z
  | Float f => whole_float_str f
  | Str s => s
  end.

(** Five JSON files, one [.csv] file and the directory [/out]. *)
Definition W0 : World :=
  {| isfile := fun p =>
       existsb (String.eqb p)
         ["/data/SCRIPT_1_Ajax.json"; "/data/SCRIPT_2_Ajax.json";
          "/data/SCRIPT_1_.json"; "/data/noid.json"; "/data/text_ids.json";
          "/data/players.csv"];
     isdir := fun p => String.eqb p "/out";
     read_excel := unreadable;
     read_json := fun p =>
       if String.eqb p "/data/SCRIPT_1_Ajax.json" then Ok players_a
       else if String.eqb p "/data/SCRIPT_2_Ajax.json" then Ok players_b
       else if String.eqb p "/data/SCRIPT_1_.json" then Ok players_a
       else if String.eqb p "/data/noid.json" then Ok no_id
       else if String.eqb p "/data/text_ids.json" then Ok text_ids
       else unreadable p;
     open_text := fun p => Raise (LibraryError "OSError" ("cannot open " ++ p));
     build_frame := fun _ _ => Raise (LibraryError "ParserError" "Error tokenizing data.");
     write_error := fun _ _ => None;
     str_value := str_example;
     today := {| Py.year := 2025; Py.month := 7; Py.day := 4 |} |}.

Definition clubs : DataFrame :=
  frame ["ID"; "Club"] [[Int 1; Str "Ajax"]; [Int 2; Str "PSV"]].

(** [players_a] joined with [clubs]. *)
Definition players_clubs : DataFrame :=
  frame ["ID"; "Name"; "Club"]
        [[Int 1; Str "X"; Str "Ajax"]; [Int 2; Str "Y"; Str "PSV"]].

(** [players_a] joined with [players_b]: the rating of the one match is
    a float, for the row without a match brings a null into its column. *)
Definition players_ratings : DataFrame :=
  frame ["ID"; "Name"; "Rating"]
        [[Int 1; Str "X"; Float (float_of_Z 88)]; [Int 2; Str "Y"; Null]].

Definition holding (l : list DataFrame) : Machine :=
  {| self := {| dfs := l; paths := map (fun _ => "/data/x.json") l; team_name := "Ajax" |};
     disk := [] |}.

(* ================================================================== *)
(** ** The vocabulary of the properties *)
(* ================================================================== *)

Definition has_ID (df : DataFrame) : Prop := has_column REQUIRED_COL df = true.
Definition lacks_ID (df : DataFrame) : Prop := has_column REQUIRED_COL df = false.

(** The ID values of a frame, row by row. *)
Definition ids (df : DataFrame) : list cell :=
  match index_of REQUIRED_COL (columns df) with
  | Some k => column k (rows df)
  | None => []
  end.

(** The labels of a frame but the ID. *)
Definition other_labels (df : DataFrame) : list string :=
  match index_of REQUIRED_COL (columns df) with
  | Some k => without k (columns df)
  | None => columns df
  end.

(** The dtype of the ID column. *)
Definition id_dtype (df : DataFrame) : dtype :=
  if key_as_object df then object else column_dtype (ids df).


(** One of the ID columns is numeric and the other holds texts and no
    integer, neither frame being empty. *)
Definition numbers_against_texts (A B : DataFrame) : bool :=
  (negb (is_empty (ids A)) && negb (is_object (id_dtype A)) && text_like (ids B))
  || (text_like (ids A) && negb (is_empty (ids B)) && negb (is_object (id_dtype B))).


(** pandas accepts the join of [acc] with [right] on the ID: each of the
    two has the label ID once; the ID columns are not one of numbers and
    the other of texts; the suffixes [_x] and [_y] make no label of a
    side occur twice. *)
Definition accepts (acc right : DataFrame) : bool :=
  Nat.eqb (count REQUIRED_COL (columns acc)) 1
  && Nat.eqb (count REQUIRED_COL (columns right)) 1
  && negb (numbers_against_texts acc right)
  && is_empty (clashes (columns acc) (other_labels right)).

(** Every join of the fold over [acc :: rest] is accepted. *)
Fixpoint joinable (acc : DataFrame) (rest : list DataFrame) : bool :=
  match rest with
  | [] => true
  | d :: rest' => accepts acc d && joinable (spec_left_join REQUIRED_COL acc d) rest'
  end.


(** The non-key columns of a row of [right]. *)
Definition non_key (right : DataFrame) (b : list cell) : list cell :=
  match index_of REQUIRED_COL (columns right) with
  | Some kr => without kr b
  | None => b
  end.







(** The registry after a successful [add_file] of [path] that loaded [df]. *)
Definition added (path : string) (df : DataFrame) (m : Machine) : Machine :=
  {| self :=
       {| dfs := (dfs (self m) ++ [df])%list;
          paths := (paths (self m) ++ [path])%list;
          team_name := if String.eqb (team_name (self m)) ""
                       then extract_team_name path
                       else team_name (self m) |};
     disk := disk m |}.


(** The name [save] gives its output, the extension aside. *)
Definition output_base (W : World) (folder : string) (m : Machine) : string :=
  Py.path_join folder
    ("Data_" ++ team_name (self m) ++ "_" ++ Py.strftime_Ymd (today W)).

Definition same_length (m : Machine) : Prop :=
  List.length (dfs (self m)) = List.length (paths (self m)).

(* ================================================================== *)
(** ** Further vocabulary: the registry and the joined table *)
(* ================================================================== *)

(** The number of columns of a frame. *)
Definition width (df : DataFrame) : nat := List.length (columns df).

(** The team name is empty or extracted from a path of the registry. *)
Definition named_after_source (m : Machine) : Prop :=
  team_name (self m) = ""
  \/ exists p, In p (paths (self m)) /\ team_name (self m) = extract_team_name p.

(** What the calls keep true of the registry. *)
Definition registry_ok (m : Machine) : Prop :=
  Forall has_ID (dfs (self m))
  /\ named_after_source m
  /\ (dfs (self m) = [] -> team_name (self m) = "").


(* ================================================================== *)
(** ** The presentation layer: the handlers of [MergerGUI] *)
(* ================================================================== *)

Module Gui.

(** The state of a Tk widget. *)
Inductive widget_state : Type := NORMAL | DISABLED.

(** The text of a label, up to the pictogram it starts with: the text
    ["Not selected"], a file name, or the output folder. *)
Inductive label : Type :=
| NotSelected
| FileName (name : string)
| FolderName (folder : string).

(** The texts of the status label. *)
Inductive status : Type :=
| StandBy | StartingMerge | MergingData | SavingOutput | Completed | Ready.

(** A file card: its label and the content of its preview box. *)
Record card : Type := { lbl : label; preview : string }.

(** A message box, with its title and its message. *)
Inductive box : Type :=
| showerror (title message : string)
| showinfo (title message : string).

(** What the window holds: the [DataManager] (with the disk it writes
    to), the two entries of the global [config], the theme in use, the
    widgets the handlers write to, and the message boxes shown so far,
    oldest first.  The value of the progress bar, a float, is left out:
    nothing reads it. *)
Record MergerGUI : Type := {
  dm : Machine;
  output_folder : string;
  theme : string;
  style_theme : string;
  file_cards : list card;
  out_lbl : label;
  global_preview : string;
  status_lbl : status;
  btn_merge : widget_state;
  boxes : list box
}.

Definition set_dm (m : Machine) (g : MergerGUI) : MergerGUI :=
  {| dm := m; output_folder := output_folder g; theme := theme g;
     style_theme := style_theme g; file_cards := file_cards g; out_lbl := out_lbl g;
     global_preview := global_preview g; status_lbl := status_lbl g;
     btn_merge := btn_merge g; boxes := boxes g |}.

Definition set_output_folder (f : string) (g : MergerGUI) : MergerGUI :=
  {| dm := dm g; output_folder := f; theme := theme g;
     style_theme := style_theme g; file_cards := file_cards g; out_lbl := out_lbl g;
     global_preview := global_preview g; status_lbl := status_lbl g;
     btn_merge := btn_merge g; boxes := boxes g |}.

Definition set_themes (t : string) (g : MergerGUI) : MergerGUI :=
  {| dm := dm g; output_folder := output_folder g; theme := t;
     style_theme := t; file_cards := file_cards g; out_lbl := out_lbl g;
     global_preview := global_preview g; status_lbl := status_lbl g;
     btn_merge := btn_merge g; boxes := boxes g |}.

Definition set_file_cards (cs : list card) (g : MergerGUI) : MergerGUI :=
  {| dm := dm g; output_folder := output_folder g; theme := theme g;
     style_theme := style_theme g; file_cards := cs; out_lbl := out_lbl g;
     global_preview := global_preview g; status_lbl := status_lbl g;
     btn_merge := btn_merge g; boxes := boxes g |}.

Definition set_out_lbl (l : label) (g : MergerGUI) : MergerGUI :=
  {| dm := dm g; output_folder := output_folder g; theme := theme g;
     style_theme := style_theme g; file_cards := file_cards g; out_lbl := l;
     global_preview := global_preview g; status_lbl := status_lbl g;
     btn_merge := btn_merge g; boxes := boxes g |}.

Definition set_global_preview (s : string) (g : MergerGUI) : MergerGUI :=
  {| dm := dm g; output_folder := output_folder g; theme := theme g;
     style_theme := style_theme g; file_cards := file_cards g; out_lbl := out_lbl g;
     global_preview := s; status_lbl := status_lbl g;
     btn_merge := btn_merge g; boxes := boxes g |}.

Definition set_status_lbl (s : status) (g : MergerGUI) : MergerGUI :=
  {| dm := dm g; output_folder := output_folder g; theme := theme g;
     style_theme := style_theme g; file_cards := file_cards g; out_lbl := out_lbl g;
     global_preview := global_preview g; status_lbl := s;
     btn_merge := btn_merge g; boxes := boxes g |}.

Definition set_btn_merge (b : widget_state) (g : MergerGUI) : MergerGUI :=
  {| dm := dm g; output_folder := output_folder g; theme := theme g;
     style_theme := style_theme g; file_cards := file_cards g; out_lbl := out_lbl g;
     global_preview := global_preview g; status_lbl := status_lbl g;
     btn_merge := b; boxes := boxes g |}.

(** [messagebox.showerror(...)] and [messagebox.showinfo(...)] *)
Definition show (b : box) (g : MergerGUI) : MergerGUI :=
  {| dm := dm g; output_folder := output_folder g; theme := theme g;
     style_theme := style_theme g; file_cards := file_cards g; out_lbl := out_lbl g;
     global_preview := global_preview g; status_lbl := status_lbl g;
     btn_merge := btn_merge g; boxes := (boxes g ++ [b])%list |}.

(** The card at position [idx] replaced. *)
Fixpoint replace_card (idx : nat) (c : card) (cs : list card) : list card :=
  match cs, idx with
  | [], _ => []
  | _ :: cs', O => c :: cs'
  | c0 :: cs', S i => c0 :: replace_card i c cs'
  end.

(** [df.head()]: the first five rows. *)
Definition head (df : DataFrame) : DataFrame :=
  {| columns := columns df; rows := firstn 5 (rows df);
     key_as_object := key_as_object df |}.

(** [str(e)] of the [IndexError] a list raises. *)
Definition index_error : string := "list index out of range".

Section Handlers.

Variable W : World.

(** [df.to_string(index=False)], pandas' rendering of a frame. *)
Variable to_string : DataFrame -> string.

(** [preview_merge] *)
Definition preview_merge (g : MergerGUI) : MergerGUI :=
  match merge_all (dm g) with
  | (Ok merged, m') =>
      (* global_preview.delete("1.0", END), then insert(END, ...) *)
      let g1 := set_global_preview EmptyString (set_dm m' g) in
      set_global_preview (global_preview g1 ++ to_string (head merged)) g1
  | (Raise e, m') => show (showerror "Preview Error" (exn_str e)) (set_dm m' g)
  end.

(** [update_status] *)
Definition update_status (g : MergerGUI) : MergerGUI :=
  let ok := (2 <=? List.length (dfs (self (dm g))))%nat
            && negb (String.eqb (output_folder g) EmptyString) in
  let g1 := set_btn_merge (if ok then NORMAL else DISABLED) g in
  let g2 := set_out_lbl (if negb (String.eqb (output_folder g1) EmptyString)
                         then FolderName (output_folder g1) else NotSelected) g1 in
  if (2 <=? List.length (dfs (self (dm g2))))%nat then preview_merge g2 else g2.

(** The [try] block of [choose_file], with its [except] clause. *)
Definition choose_file_try (idx : nat) (path : string) (g : MergerGUI) : MergerGUI :=
  match add_file W path (dm g) with
  | (Raise e, m') => show (showerror "Error" (exn_str e)) (set_dm m' g)
  | (Ok _, m') =>
      let g1 := set_dm m' g in
      match nth_error (file_cards g1) idx with
      | None => show (showerror "Error" index_error) g1
      | Some c =>
          (* card.lbl.config(text=...) *)
          let c1 := {| lbl := FileName (Py.basename path); preview := preview c |} in
          (* card.preview.delete("1.0", END) *)
          let c2 := {| lbl := lbl c1; preview := EmptyString |} in
          let g2 := set_file_cards (replace_card idx c2 (file_cards g1)) g1 in
          (* card.preview.insert(END, self.dm.dfs[idx].head().to_string(index=False)) *)
          match nth_error (dfs (self (dm g2))) idx with
          | None => show (showerror "Error" index_error) g2
          | Some df =>
              let c3 := {| lbl := lbl c2; preview := preview c2 ++ to_string (head df) |} in
              set_file_cards (replace_card idx c3 (file_cards g2)) g2
          end
      end
  end.

(** [choose_file(idx)], the dialog having returned [path] (empty when the
    dialog was cancelled). *)
Definition choose_file (idx : nat) (path : string) (g : MergerGUI) : MergerGUI :=
  if String.eqb path EmptyString then g
  else update_status (choose_file_try idx path g).

(** [choose_output], the dialog having returned [folder]. *)
Definition choose_output (folder : string) (g : MergerGUI) : MergerGUI :=
  if String.eqb folder EmptyString then g
  else update_status (set_output_folder folder g).

(** [_do_merge]: the [try] block, its [except] clause, its [finally]. *)
Definition do_merge_try (g : MergerGUI) : MergerGUI :=
  let g1 := set_status_lbl MergingData g in
  match merge_all (dm g1) with
  | (Raise e, m') => show (showerror "Failed" (exn_str e)) (set_dm m' g1)
  | (Ok _, m') =>
      let g2 := set_status_lbl SavingOutput (set_dm m' g1) in
      match save W (output_folder g2) (dm g2) with
      | (Raise e, m'') => show (showerror "Failed" (exn_str e)) (set_dm m'' g2)
      | (Ok _, m'') =>
          let g3 := set_status_lbl Completed (set_dm m'' g2) in
          show (showinfo "Success" "Files merged and saved successfully!") g3
      end
  end.

Definition do_merge (g : MergerGUI) : MergerGUI :=
  set_status_lbl Ready (do_merge_try g).

(** [start_merge]; the thread it starts is run to its end at once. *)
Definition start_merge (g : MergerGUI) : MergerGUI :=
  do_merge (set_status_lbl StartingMerge g).

(** A click on the merge button: a disabled button does nothing. *)
Definition click_merge (g : MergerGUI) : MergerGUI :=
  match btn_merge g with
  | NORMAL => start_merge g
  | DISABLED => g
  end.

(** [reset_all] *)
Definition reset_all (g : MergerGUI) : MergerGUI :=
  let g1 := set_dm (snd (Merger.reset_all (dm g))) g in
  let blank := {| lbl := NotSelected; preview := EmptyString |} in
  let g2 := set_file_cards (map (fun _ => blank) (file_cards g1)) g1 in
  let g3 := set_global_preview EmptyString g2 in
  let g4 := set_out_lbl NotSelected g3 in
  let g5 := set_status_lbl StandBy g4 in
  update_status g5.

(** [toggle_theme] *)
Definition toggle_theme (g : MergerGUI) : MergerGUI :=
  let new_theme := if String.eqb (style_theme g) "flatly" then "superhero" else "flatly" in
  set_themes new_theme g.

(** [MergerGUI()]: a new [DataManager], the widgets as [_build_ui] makes
    them, the global [config] as the module defines it, then
    [update_status()]. *)
Definition built : MergerGUI :=
  {| dm := fresh;
     output_folder := EmptyString;
     theme := "superhero";
     style_theme := "superhero";
     file_cards := repeat {| lbl := NotSelected; preview := EmptyString |} MAX_FILES;
     out_lbl := NotSelected;
     global_preview := EmptyString;
     status_lbl := StandBy;
     btn_merge := DISABLED;
     boxes := [] |}.

Definition init : MergerGUI := update_status built.

(** What the user does, and a session of the window. *)
Inductive event : Type :=
| ChooseFile (idx : nat) (path : string)
| ChooseOutput (folder : string)
| ClickMerge
| ClickReset
| ToggleTheme.

Definition handle (g : MergerGUI) (ev : event) : MergerGUI :=
  match ev with
  | ChooseFile idx path => choose_file idx path g
  | ChooseOutput folder => choose_output folder g
  | ClickMerge => click_merge g
  | ClickReset => reset_all g
  | ToggleTheme => toggle_theme g
  end.

Definition session (events : list event) : MergerGUI :=
  fold_left handle events init.

End Handlers.

(** The merge button is enabled exactly when two files are registered
    and an output folder is chosen, and the folder label shows the
    folder. *)
Definition consistent (g : MergerGUI) : Prop :=
  (btn_merge g = NORMAL <->
   2 <= List.length (dfs (self (dm g))) /\ output_folder g <> EmptyString)
  /\ out_lbl g = (if String.eqb (output_folder g) EmptyString
                  then NotSelected else FolderName (output_folder g)).

End Gui.

(** A session: two files, then the output folder. *)
Definition two_files_and_folder : list Gui.event :=
  [Gui.ChooseFile 0 "/data/SCRIPT_1_Ajax.json";
   Gui.ChooseFile 1 "/data/SCRIPT_2_Ajax.json";
   Gui.ChooseOutput "/out"].

(** The box [preview_merge] shows for a registry of two or more frames
    that [merge_all] refuses; none otherwise. *)
Definition preview_boxes (m : Machine) : list Gui.box :=
  if (2 <=? List.length (dfs (self m)))%nat
  then match fst (merge_all m) with
       | Ok _ => []
       | Raise e => [Gui.showerror "Preview Error" (exn_str e)]
       end
  else [].

(** A rendering of a frame for the examples: its labels. *)
Definition labels_line (df : DataFrame) : string := Py.join " " (columns df).

(* ================================================================== *)
(** ** The definitions at work *)
(* ================================================================== *)

Example split_bars : Py.split "|" "ID | Name" = ["ID "; " Name"].
Proof. reflexivity. Qed.

Example strip_ex : Py.strip "  a b  " = "a b".
Proof. reflexivity. Qed.

Example replace_ex : Py.replace "SCRIPT_1_A_SCRIPT_1_B.x" "SCRIPT_1_" "" = "A_B.x".
Proof. reflexivity. Qed.

Example splitext_ex1 : Py.splitext "/a.b/SCRIPT_2_Real.Madrid.XLSX" = ("/a.b/SCRIPT_2_Real.Madrid", ".XLSX").
Proof. reflexivity. Qed.

Example splitext_ex2 : Py.splitext "/a.b/.hidden" = ("/a.b/.hidden", "").
Proof. reflexivity. Qed.

Example splitext_ex3 : Py.splitext "/a.b/..x.y" = ("/a.b/..x", ".y").
Proof. reflexivity. Qed.

Example basename_ex : Py.basename "/a.b/c.txt" = "c.txt".
Proof. reflexivity. Qed.

Example str_int_ex : (Py.str_int 0, Py.str_int 88, Py.str_int (-5)) = ("0", "88", "-5").
Proof. reflexivity. Qed.

Example repr_ex : Py.repr "ID" = "'ID'".
Proof. reflexivity. Qed.

Example strftime_ex : Py.strftime_Ymd {| Py.year := 2025; Py.month := 7; Py.day := 4 |} = "20250704".
Proof. reflexivity. Qed.

Example join_ex : Py.path_join "/out" "Data_x" = "/out/Data_x" /\ Py.path_join "/out/" "Data_x" = "/out/Data_x".
Proof. split; reflexivity. Qed.

(** The second player has no rating, so the rating column takes a null
    and the rating of the first player becomes the float 88.0. *)
Example merge_players : merge players_a players_b "ID" = Ok players_ratings.
Proof. vm_compute. reflexivity. Qed.

Example float_88 : whole_float_str (float_of_Z 88) = "88.0".
Proof. vm_compute. reflexivity. Qed.

(** Beyond 2^53 the float of an integer is another number. *)
Example float_rounds :
  float_of_Z (2 ^ 53 + 1) = float_of_Z (2 ^ 53)
  /\ float_is_Z (float_of_Z (2 ^ 53 + 1)) (2 ^ 53 + 1) = false.
Proof. split; vm_compute; reflexivity. Qed.

Example merge_fan_out :
  merge players_b
    (frame ["Club"; "ID"; "Rating"]
       [[Str "a"; Int 1; Int 3]; [Str "b"; Int 2; Int 4]; [Str "c"; Int 1; Int 5]])
    "ID"
  = Ok (frame ["ID"; "Rating_x"; "Club"; "Rating_y"]
          [[Int 1; Int 88; Str "a"; Int 3]; [Int 1; Int 88; Str "c"; Int 5]]).
Proof. vm_compute. reflexivity. Qed.

(** Integer IDs are not joined with text IDs. *)
Example merge_text_ids :
  merge players_a text_ids "ID"
  = Raise (ValueError "You are trying to merge on int64 and object columns for key 'ID'. If you wish to proceed you should use pd.concat").
Proof. vm_compute. reflexivity. Qed.

(** An ID column of integers is let through against one that mixes
    integers and texts; pandas then holds the ID column of the result as
    an [object] column, and a table with text IDs can follow. *)
Example merge_mixed_ids :
  merge players_a mixed_ids "ID"
  = Ok {| columns := ["ID"; "Name"; "Pos"];
          rows := [[Int 1; Str "X"; Str "GK"]; [Int 2; Str "Y"; Null]];
          key_as_object := true |}
  /\ fst (merge_all (holding [players_a; mixed_ids; text_ids]))
     = Ok {| columns := ["ID"; "Name"; "Pos"; "Club"];
             rows := [[Int 1; Str "X"; Str "GK"; Null]; [Int 2; Str "Y"; Null; Null]];
             key_as_object := true |}.
Proof. split; vm_compute; reflexivity. Qed.

(** The same table four times: the third join is refused, for [Name]
    would become a second [Name_x]. *)
Example merge_same_table :
  fst (merge_all (holding [players_a; players_a; players_a]))
  = Ok (frame ["ID"; "Name_x"; "Name_y"; "Name"]
          [[Int 1; Str "X"; Str "X"; Str "X"]; [Int 2; Str "Y"; Str "Y"; Str "Y"]])
  /\ fst (merge_all (holding [players_a; players_a; players_a; players_a]))
     = Raise (LibraryError "MergeError"
                "Passing 'suffixes' which cause duplicate columns {'Name_x'} is not allowed.").
Proof. split; vm_compute; reflexivity. Qed.

Example merge_suffix_clash :
  merge (frame ["ID"; "R"; "R_x"] []) (frame ["ID"; "R"] []) "ID"
  = Raise (LibraryError "MergeError"
             "Passing 'suffixes' which cause duplicate columns {'R_x'} is not allowed.").
Proof. vm_compute. reflexivity. Qed.

Example render_players :
  Txt.render str_example "ID" players_ratings
  = "ID | Name | Rating" ++ String Txt.LF ("1 | X | 88.0" ++ String Txt.LF ("2 | Y | nan" ++ String Txt.LF "")).
Proof. vm_compute. reflexivity. Qed.

(** In a frame of numeric columns, one of them of floats, the rows are
    written as floats throughout. *)
Example render_numeric :
  Txt.render str_example "ID"
    (frame ["ID"; "Rating"] [[Int 1; Float (float_of_Z 88)]; [Int 2; Null]])
  = "ID | Rating" ++ String Txt.LF ("1.0 | 88.0" ++ String Txt.LF ("2.0 | nan" ++ String Txt.LF "")).
Proof. vm_compute. reflexivity. Qed.

Example names_players : Txt.names (Txt.render str_example "ID" players_a) = ["ID"; "Name"].
Proof. vm_compute. reflexivity. Qed.

Example records_players :
  Txt.records (Txt.render str_example "ID" players_a) = [["1 "; " X"]; ["2 "; " Y"]].
Proof. vm_compute. reflexivity. Qed.

Example merge_players_clubs :
  fst (merge_all (holding [players_a; clubs])) = Ok players_clubs.
Proof. vm_compute. reflexivity. Qed.

Example add_two_files :
  self (run W0 [AddFile "/data/SCRIPT_1_Ajax.json"; AddFile "/data/SCRIPT_2_Ajax.json"] fresh)
  = {| dfs := [players_a; players_b];
       paths := ["/data/SCRIPT_1_Ajax.json"; "/data/SCRIPT_2_Ajax.json"];
       team_name := "Ajax" |}.
Proof. reflexivity. Qed.

(** [save] leaves the [.xlsx] file behind and nothing else. *)
Example save_two_files :
  disk (run W0 [AddFile "/data/SCRIPT_1_Ajax.json";
                AddFile "/data/SCRIPT_2_Ajax.json"; Save "/out"] fresh)
  = [("/out/Data_Ajax_20250704.xlsx", Excel players_ratings)].
Proof. vm_compute. reflexivity. Qed.

(* ================================================================== *)
(** ** Lemmas on the key column *)
(* ================================================================== *)

Section KeyColumn.

Lemma index_of_has_column (key : string) (df : DataFrame) :
  has_column key df = true <-> exists k, index_of key (columns df) = Some k.
Proof.
  unfold has_column. induction (columns df) as [|c cols IH]; simpl.
  - split; [discriminate | intros [k Hk]; discriminate].
  - destruct (String.eqb key c); simpl.
    + split; [exists 0; reflexivity | reflexivity].
    + rewrite IH. split; intros [k Hk].
      * rewrite Hk. eauto.
      * destruct (index_of key cols); [eauto | discriminate].
Qed.


Lemma index_of_app (key : string) (l1 l2 : list string) (k : nat) :
  index_of key l1 = Some k -> index_of key (l1 ++ l2)%list = Some k.
Proof.
  revert k. induction l1 as [|c l1 IH]; simpl; intros k H; [discriminate|].
  destruct (String.eqb key c); [assumption|].
  destruct (index_of key l1) as [i|]; [|discriminate].
  rewrite (IH i eq_refl). assumption.
Qed.

Lemma index_of_map (key : string) (f : string -> string) (l : list string) :
  (forall c, In c l -> String.eqb key (f c) = String.eqb key c) ->
  index_of key (map f l) = index_of key l.
Proof.
  intros Hf. induction l as [|c l IH]; simpl; [reflexivity|].
  rewrite Hf by (left; reflexivity).
  rewrite IH; [reflexivity|]. intros c' Hc'. apply Hf. right. exact Hc'.
Qed.

Lemma index_of_bound (key : string) (cols : list string) (k : nat) :
  index_of key cols = Some k -> k < List.length cols.
Proof.
  revert k. induction cols as [|c cs IH]; simpl; intros k H; [discriminate|].
  destruct (String.eqb key c).
  - inversion H. apply Nat.lt_0_succ.
  - destruct (index_of key cs) as [i|]; [|discriminate].
    inversion H. apply -> Nat.succ_lt_mono. apply IH. reflexivity.
Qed.

Lemma length_append (s t : string) :
  String.length (s ++ t) = String.length s + String.length t.
Proof. induction s as [|c s IH]; simpl; [reflexivity | rewrite IH; reflexivity]. Qed.

(** A suffixed label is never the label [ID]. *)
Lemma suffixed_not_ID (c : string) : String.eqb REQUIRED_COL (c ++ "_x") = false.
Proof.
  apply String.eqb_neq. intros H.
  assert (L : String.length REQUIRED_COL = String.length (c ++ "_x")) by (rewrite <- H; reflexivity).
  rewrite length_append in L. simpl in L.
  destruct c; simpl in *; [discriminate H | lia].
Qed.

Lemma mem_In (c : string) (l : list string) : mem c l = true <-> In c l.
Proof.
  unfold mem. rewrite existsb_exists. split.
  - intros [x [Hin He]]. apply String.eqb_eq in He. subst. exact Hin.
  - intros H. exists c. split; [exact H | apply String.eqb_refl].
Qed.

Lemma mem_not_In (c : string) (l : list string) : mem c l = false <-> ~ In c l.
Proof.
  rewrite <- mem_In. destruct (mem c l).
  - split; intros H; [discriminate H | exfalso; apply H; reflexivity].
  - split; intros H; [intros H'; discriminate H' | reflexivity].
Qed.

(** The label occurs as often as [count] says. *)
Lemma count_zero (key : string) (cols : list string) :
  count key cols = 0 <-> index_of key cols = None.
Proof.
  unfold count. induction cols as [|c cs IH]; simpl; [tauto|].
  destruct (String.eqb key c); simpl.
  - split; intros H; discriminate H.
  - rewrite IH. destruct (index_of key cs); split; intros H; congruence.
Qed.

Lemma count_zero_mem (key : string) (cols : list string) :
  count key cols = 0 <-> mem key cols = false.
Proof.
  unfold count, mem. induction cols as [|c cs IH]; simpl; [tauto|].
  destruct (String.eqb key c); simpl; [split; intros H; discriminate H | exact IH].
Qed.

Lemma key_position_once (key : string) (cols : list string) :
  count key cols = 1 ->
  exists k, index_of key cols = Some k /\ key_position key cols = Ok k.
Proof.
  intros H. unfold key_position.
  destruct (index_of key cols) as [k|] eqn:E.
  - exists k. rewrite H. split; reflexivity.
  - apply count_zero in E. congruence.
Qed.

Lemma key_position_ok (key : string) (cols : list string) (k : nat) :
  key_position key cols = Ok k -> index_of key cols = Some k /\ count key cols = 1.
Proof.
  unfold key_position. destruct (index_of key cols) as [i|] eqn:E; [|discriminate].
  destruct (1 <? count key cols)%nat eqn:L; [discriminate|].
  intros H. inversion H; subst. split; [reflexivity|].
  apply Nat.ltb_ge in L.
  destruct (count key cols) as [|n] eqn:C; [|lia].
  apply count_zero in C. congruence.
Qed.

(** With the label once among the columns, the other columns are free of it. *)
Lemma without_key_free (key : string) (cols : list string) :
  forall k, index_of key cols = Some k -> count key cols = 1 ->
  mem key (without k cols) = false.
Proof.
  unfold count, without. induction cols as [|c cs IH]; simpl; intros k Hk Hc; [discriminate|].
  destruct (String.eqb key c) eqn:E.
  - inversion Hk; subst. simpl in *. apply count_zero_mem. unfold count. lia.
  - destruct (index_of key cs) as [i|]; [|discriminate]. inversion Hk; subst.
    simpl. unfold mem in *. simpl. rewrite E. simpl.
    apply (IH i eq_refl Hc).
Qed.

(** The result of a join has the key column where the left side had it. *)
Lemma merged_columns_key (kl kr : nat) (lcols rcols : list string) :
  index_of REQUIRED_COL lcols = Some kl ->
  mem REQUIRED_COL (without kr rcols) = false ->
  index_of REQUIRED_COL (merged_columns kr lcols rcols) = Some kl.
Proof.
  intros H Hfree. unfold merged_columns. apply index_of_app.
  rewrite index_of_map; [assumption|].
  intros c _. unfold suffixed.
  destruct (mem c (without kr rcols)) eqn:M; [|reflexivity].
  rewrite suffixed_not_ID. symmetry. apply String.eqb_neq. intros <-. congruence.
Qed.

End KeyColumn.

(* ================================================================== *)
(** ** The join of the code and the join of the specification *)
(* ================================================================== *)



Lemma upcast_length (flags : list bool) (row : list cell) :
  List.length (upcast flags row) = List.length row.
Proof.
  revert row. induction flags as [|f fs IH]; intros [|c row]; simpl; try reflexivity.
  rewrite IH. reflexivity.
Qed.

Section LeftJoin.

Variables (kl kr : nat) (acc right : DataFrame).

Local Abbreviation same := (key_eqb kl kr acc right).
Local Abbreviation conv := (conversion kl kr acc right).
Local Abbreviation width := (List.length (columns right) - 1).

Lemma conversion_length (row : list cell) :
  List.length (conv row) = List.length row.
Proof.
  unfold conversion. destruct (unmatched _ _ _ _ _); [apply upcast_length | reflexivity].
Qed.

Lemma matches_filter (a : list cell) (rs : list (list cell)) :
  matches same conv kl kr a rs
  = map (fun b => (a ++ conv (without kr b))%list)
        (filter (fun b => same (at_col kl a) (at_col kr b)) rs).
Proof.
  induction rs as [|b rs IH]; simpl; [reflexivity|].
  destruct (same (at_col kl a) (at_col kr b)); simpl; rewrite IH; reflexivity.
Qed.

Lemma join_rows_blocks (left : list (list cell)) :
  join_rows same conv kl kr width left (rows right)
  = flat_map (spec_block kl kr acc right) left.
Proof.
  induction left as [|a left IH]; simpl; [reflexivity|].
  rewrite matches_filter, IH. unfold spec_block, spec_matching.
  destruct (filter _ (rows right)); reflexivity.
Qed.


(** Every row of a block starts with the left row it comes from. *)
Lemma spec_block_prefix (a o : list cell) :
  In o (spec_block kl kr acc right a) -> firstn (List.length a) o = a.
Proof.
  unfold spec_block. intros H.
  assert (P : forall t, firstn (List.length a) (a ++ t)%list = a).
  { intros t. rewrite firstn_app, Nat.sub_diag, firstn_all. simpl. apply app_nil_r. }
  destruct (spec_matching kl kr acc right a) as [|b bs] eqn:E.
  - destruct H as [<-|[]]. apply P.
  - apply in_map_iff in H. destruct H as [b' [<- _]]. apply P.
Qed.

Lemma spec_block_nonempty (a : list cell) : spec_block kl kr acc right a <> [].
Proof.
  unfold spec_block. destruct (spec_matching kl kr acc right a); simpl; discriminate.
Qed.

(** A block has one row per match, and one row when nothing matches. *)
Lemma spec_block_length (a : list cell) :
  List.length (spec_block kl kr acc right a)
  = Nat.max 1 (List.length (spec_matching kl kr acc right a)).
Proof.
  unfold spec_block. destruct (spec_matching kl kr acc right a) as [|b bs]; [reflexivity|].
  rewrite length_map. simpl. reflexivity.
Qed.



End LeftJoin.

Lemma ids_at (df : DataFrame) (k : nat) :
  index_of REQUIRED_COL (columns df) = Some k -> ids df = column k (rows df).
Proof. intros H. unfold ids. rewrite H. reflexivity. Qed.

Lemma id_dtype_at (df : DataFrame) (k : nat) :
  index_of REQUIRED_COL (columns df) = Some k -> id_dtype df = key_dtype k df.
Proof. intros H. unfold id_dtype, key_dtype. rewrite (ids_at _ _ H). reflexivity. Qed.


Lemma incompatible_at (A B : DataFrame) (kl kr : nat) :
  index_of REQUIRED_COL (columns A) = Some kl ->
  index_of REQUIRED_COL (columns B) = Some kr ->
  incompatible A B kl kr = numbers_against_texts A B.
Proof.
  intros Hl Hr. unfold incompatible, numbers_against_texts.
  rewrite (id_dtype_at _ _ Hl), (id_dtype_at _ _ Hr), (ids_at _ _ Hl), (ids_at _ _ Hr).
  reflexivity.
Qed.

Lemma other_labels_at (df : DataFrame) (k : nat) :
  index_of REQUIRED_COL (columns df) = Some k -> other_labels df = without k (columns df).
Proof. intros H. unfold other_labels. rewrite H. reflexivity. Qed.

Lemma accepts_parts (acc right : DataFrame) :
  accepts acc right = true ->
  count REQUIRED_COL (columns acc) = 1
  /\ count REQUIRED_COL (columns right) = 1
  /\ numbers_against_texts acc right = false
  /\ clashes (columns acc) (other_labels right) = [].
Proof.
  unfold accepts. intros H.
  apply andb_prop in H. destruct H as [H H4].
  apply andb_prop in H. destruct H as [H H3].
  apply andb_prop in H. destruct H as [H1 H2].
  apply Nat.eqb_eq in H1. apply Nat.eqb_eq in H2.
  apply negb_true_iff in H3.
  repeat split; try assumption.
  destruct (clashes (columns acc) (other_labels right)); [reflexivity | discriminate H4].
Qed.

(** An accepted join is the left join of the specification. *)
Lemma merge_is_spec_left_join (acc right : DataFrame) :
  accepts acc right = true ->
  merge acc right REQUIRED_COL = Ok (spec_left_join REQUIRED_COL acc right).
Proof.
  intros H. apply accepts_parts in H. destruct H as [Ha [Hr [Hi Hc]]].
  destruct (key_position_once _ _ Ha) as [kl [Hkl Pl]].
  destruct (key_position_once _ _ Hr) as [kr [Hkr Pr]].
  unfold merge, spec_left_join. rewrite Pl, Pr, Hkl, Hkr.
  rewrite <- (incompatible_at _ _ _ _ Hkl Hkr) in Hi.
  rewrite (other_labels_at _ _ Hkr) in Hc.
  rewrite Hi, Hc, join_rows_blocks. reflexivity.
Qed.

(** A join that is not accepted raises. *)
Lemma merge_accepted (acc right out : DataFrame) :
  merge acc right REQUIRED_COL = Ok out -> accepts acc right = true.
Proof.
  unfold merge.
  destruct (key_position REQUIRED_COL (columns right)) as [kr|] eqn:Pr; [|discriminate].
  destruct (key_position REQUIRED_COL (columns acc)) as [kl|] eqn:Pl; [|discriminate].
  apply key_position_ok in Pr. destruct Pr as [Hkr Cr].
  apply key_position_ok in Pl. destruct Pl as [Hkl Cl].
  destruct (incompatible _ _ _ _) eqn:Hi; [discriminate|].
  destruct (clashes _ _) eqn:Hc; [|discriminate].
  intros _. unfold accepts.
  rewrite Cl, Cr, <- (incompatible_at _ _ _ _ Hkl Hkr), Hi, (other_labels_at _ _ Hkr), Hc.
  reflexivity.
Qed.

Lemma merge_refused (acc right : DataFrame) :
  accepts acc right = false -> exists e, merge acc right REQUIRED_COL = Raise e.
Proof.
  intros H. destruct (merge acc right REQUIRED_COL) as [out|e] eqn:E; [|eauto].
  apply merge_accepted in E. congruence.
Qed.



Lemma has_ID_index (d : DataFrame) :
  has_ID d -> exists k, index_of REQUIRED_COL (columns d) = Some k.
Proof. intros H. apply index_of_has_column. exact H. Qed.

Lemma accepts_has_ID (acc right : DataFrame) :
  accepts acc right = true -> has_ID acc /\ has_ID right.
Proof.
  intros H. apply accepts_parts in H. destruct H as [Ha [Hr _]].
  destruct (key_position_once _ _ Ha) as [kl [Hkl _]].
  destruct (key_position_once _ _ Hr) as [kr [Hkr _]].
  split; apply index_of_has_column; eauto.
Qed.

(** The joined table has the ID where the accumulator has it, and has it once. *)
Lemma spec_left_join_key (acc right : DataFrame) (kl : nat) :
  accepts acc right = true ->
  index_of REQUIRED_COL (columns acc) = Some kl ->
  index_of REQUIRED_COL (columns (spec_left_join REQUIRED_COL acc right)) = Some kl.
Proof.
  intros H Hkl. apply accepts_parts in H. destruct H as [_ [Hr _]].
  destruct (key_position_once _ _ Hr) as [kr [Hkr _]].
  unfold spec_left_join. rewrite Hkl, Hkr. cbn [columns].
  apply merged_columns_key; [exact Hkl|].
  apply without_key_free; assumption.
Qed.

Lemma spec_left_join_keeps_key (acc right : DataFrame) :
  accepts acc right = true -> has_ID (spec_left_join REQUIRED_COL acc right).
Proof.
  intros H. destruct (accepts_has_ID _ _ H) as [Ha _].
  apply has_ID_index in Ha. destruct Ha as [kl Hkl].
  apply index_of_has_column. exists kl. apply spec_left_join_key; assumption.
Qed.

Lemma merge_loop_is_fold (ts : list DataFrame) :
  forall t, joinable t ts = true ->
  merge_loop t ts = Ok (fold_left (spec_left_join REQUIRED_COL) ts t).
Proof.
  induction ts as [|d ts IH]; intros t H; simpl; [reflexivity|].
  simpl in H. apply andb_prop in H. destruct H as [Hd Hts].
  rewrite (merge_is_spec_left_join t d Hd). apply IH. exact Hts.
Qed.





(* ================================================================== *)
(** ** Merge *)
(* ================================================================== *)

Lemma merge_all_eq (m : Machine) (t : DataFrame) (ts : list DataFrame) :
  dfs (self m) = t :: ts ->
  merge_all m = (match merge_loop t ts with Ok r => Ok r | Raise e => Raise e end, m).
Proof.
  intros H. unfold merge_all, bind, get. rewrite H.
  unfold lift. destruct (merge_loop t ts); reflexivity.
Qed.






(** C2. Merging the single-element list [[T]], for a table [T] with the ID
    column, returns [T] unchanged (and leaves the registry as it was). *)
Theorem merge_all_single (m : Machine) (T : DataFrame) :
  has_ID T ->
  dfs (self m) = [T] ->
  merge_all m = (Ok T, m).
Proof.
  intros _ H. rewrite (merge_all_eq m T [] H). reflexivity.
Qed.

Lemma merge_all_single_witness :
  has_ID players_a /\ merge_all (holding [players_a]) = (Ok players_a, holding [players_a]).
Proof.
  split; [reflexivity|].
  apply (merge_all_single (holding [players_a]) players_a); reflexivity.
Defined.








(* ================================================================== *)
(** ** The registry *)
(* ================================================================== *)

Ltac run_method :=
  cbv beta iota delta [bind get put ret raise lift dfs_append paths_append
                       set_team_name];
  cbn [self disk dfs paths team_name fst snd negb].

(** [add_file] either raises before it has touched anything, or appends
    the frame and the path and seeds the team name if there is none. *)
Lemma add_file_cases (W : World) (path : string) (m : Machine) :
  (exists e, add_file W path m = (Raise e, m)
             /\ ((read W path = Raise e)
                 \/ (exists df, read W path = Ok df /\ lacks_ID df /\ e = MissingKeyColumn)))
  \/ (exists df, read W path = Ok df /\ has_ID df
                 /\ add_file W path m = (Ok tt, added path df m)).
Proof.
  unfold add_file, has_ID, lacks_ID.
  destruct (read W path) as [df|e] eqn:R.
  - destruct (has_column REQUIRED_COL df) eqn:K.
    + right. exists df. split; [reflexivity|]. split; [exact K|].
      run_method. rewrite K. run_method. unfold added.
      destruct (String.eqb (team_name (self m)) ""); reflexivity.
    + left. exists MissingKeyColumn. split.
      * run_method. rewrite K. reflexivity.
      * right. exists df. split; [reflexivity|]. split; [exact K | reflexivity].
  - left. exists e. split; [reflexivity | left; reflexivity].
Qed.

Lemma merge_all_pure (m : Machine) : snd (merge_all m) = m.
Proof.
  unfold merge_all. run_method.
  destruct (dfs (self m)) as [|t ts]; [reflexivity|].
  destruct (merge_loop t ts); reflexivity.
Qed.

(** What [save] comes to, case by case: it never returns. *)
Lemma save_outcome (W : World) (folder : string) (m : Machine) :
  save W folder m
  = if negb (isdir W folder) then (Raise InvalidOutputFolder, m)
    else match fst (merge_all m) with
         | Raise e => (Raise e, m)
         | Ok merged =>
             match write_error W (output_base W folder m ++ ".xlsx") (Excel merged) with
             | Some e => (Raise e, m)
             | None =>
                 (Raise unexpected_encoding,
                  {| self := self m;
                     disk := store (output_base W folder m ++ ".xlsx") (Excel merged)
                               (disk m) |})
             end
         end.
Proof.
  unfold save. destruct (isdir W folder); cbn [negb]; [|reflexivity].
  unfold bind at 1. pose proof (merge_all_pure m) as Hm.
  destruct (merge_all m) as [[merged|e] m1]; simpl in Hm; subst m1; [|reflexivity].
  unfold bind at 1. unfold get at 1.
  fold (output_base W folder m). cbn [fst].
  unfold bind, write, to_json, raise.
  destruct (write_error W (output_base W folder m ++ ".xlsx") (Excel merged)); reflexivity.
Qed.

Lemma save_self (W : World) (folder : string) (m : Machine) :
  self (snd (save W folder m)) = self m.
Proof.
  rewrite save_outcome. destruct (negb (isdir W folder)); [reflexivity|].
  destruct (fst (merge_all m)); [|reflexivity].
  destruct (write_error W _ _); reflexivity.
Qed.

Lemma save_raises (W : World) (folder : string) (m : Machine) :
  exists e, fst (save W folder m) = Raise e.
Proof.
  rewrite save_outcome. destruct (negb (isdir W folder)); [eexists; reflexivity|].
  destruct (fst (merge_all m)); [|eexists; reflexivity].
  destruct (write_error W _ _); eexists; reflexivity.
Qed.

Lemma file_store (p q : string) (c : content) (files : list (string * content)) :
  file p (store q c files) = if String.eqb q p then Some c else file p files.
Proof.
  induction files as [|[p0 c0] files IH]; simpl; [reflexivity|].
  destruct (String.eqb p0 q) eqn:E0; simpl.
  - apply String.eqb_eq in E0. subst p0.
    destruct (String.eqb q p); reflexivity.
  - rewrite IH. destruct (String.eqb p0 p) eqn:E1; [|reflexivity].
    apply String.eqb_eq in E1. subst p0. rewrite String.eqb_sym, E0. reflexivity.
Qed.

Lemma reset_all_eq (m : Machine) :
  reset_all m = (Ok tt, {| self := init; disk := disk m |}).
Proof. reflexivity. Qed.

Lemma step_same_length (W : World) (m : Machine) (c : call) :
  same_length m -> same_length (step W m c).
Proof.
  unfold same_length. intros H. destruct c as [path| | |folder]; unfold step, discard.
  - destruct (add_file_cases W path m) as [[e [E _]]|[df [_ [_ E]]]]; rewrite E; simpl.
    + exact H.
    + rewrite !length_app, H. reflexivity.
  - reflexivity.
  - rewrite merge_all_pure. exact H.
  - rewrite save_self. exact H.
Qed.

Lemma run_same_length (W : World) (calls : list call) :
  forall m, same_length m -> same_length (run W calls m).
Proof.
  unfold run. induction calls as [|c calls IH]; intros m H; simpl; [exact H|].
  apply IH. apply step_same_length. exact H.
Qed.

(** C6. When the file loads but the frame has no ID column, [add_file]
    raises [MissingKeyColumn] and the registry (frames, paths, team name)
    is what it was. *)
Theorem add_file_missing_key (W : World) (path : string) (df : DataFrame) (m : Machine) :
  read W path = Ok df ->
  lacks_ID df ->
  add_file W path m = (Raise MissingKeyColumn, m).
Proof.
  intros R K. destruct (add_file_cases W path m) as [[e [E [R'|[df' [R' [_ ->]]]]]]|[df' [R' [K' _]]]].
  - congruence.
  - exact E.
  - unfold has_ID, lacks_ID in *. congruence.
Qed.

Lemma add_file_missing_key_witness :
  read W0 "/data/noid.json" = Ok no_id
  /\ lacks_ID no_id
  /\ add_file W0 "/data/noid.json" (holding [players_a])
     = (Raise (KeyError "Column 'ID' not found."), holding [players_a]).
Proof.
  split; [reflexivity|]. split; [reflexivity|].
  apply (add_file_missing_key W0 "/data/noid.json" no_id (holding [players_a]));
    reflexivity.
Defined.

(** C7. When the destination is no directory, [save] raises
    [InvalidOutputFolder] and no file has been created. *)
Theorem save_invalid_folder (W : World) (folder : string) (m : Machine) :
  isdir W folder = false ->
  save W folder m = (Raise InvalidOutputFolder, m)
  /\ disk (snd (save W folder m)) = disk m.
Proof.
  intros H. unfold save. rewrite H. split; reflexivity.
Qed.

Lemma save_invalid_folder_witness :
  isdir W0 "/nowhere" = false
  /\ save W0 "/nowhere" (holding [players_a; players_b])
     = (Raise (FileNotFoundError "Invalid output folder."), holding [players_a; players_b]).
Proof.
  split; [reflexivity|].
  apply (proj1 (save_invalid_folder W0 "/nowhere" (holding [players_a; players_b]) eq_refl)).
Defined.

(** C10. In every state the calls of the presentation layer can reach,
    the list of frames and the list of paths have the same length; a
    successful [add_file] appends one element to each, a failed one leaves
    both as they were, and the reset empties both. *)
Theorem registry_same_length (W : World) (calls : list call) :
  let m := run W calls fresh in
  same_length m
  /\ (forall path m', add_file W path m = (Ok tt, m') ->
        exists df, dfs (self m') = (dfs (self m) ++ [df])%list
                   /\ paths (self m') = (paths (self m) ++ [path])%list)
  /\ (forall path e m', add_file W path m = (Raise e, m') ->
        dfs (self m') = dfs (self m) /\ paths (self m') = paths (self m))
  /\ dfs (self (snd (reset_all m))) = []
  /\ paths (self (snd (reset_all m))) = [].
Proof.
  intros m. split.
  - apply run_same_length. reflexivity.
  - repeat split.
    + intros path m' H.
      destruct (add_file_cases W path m) as [[e [E _]]|[df [_ [_ E]]]]; [congruence|].
      rewrite E in H. inversion H; subst m'. exists df. split; reflexivity.
    + destruct (add_file_cases W path m) as [[e' [E _]]|[df [_ [_ E]]]]; congruence.
    + destruct (add_file_cases W path m) as [[e' [E _]]|[df [_ [_ E]]]]; congruence.
Qed.

Lemma registry_same_length_witness :
  add_file W0 "/data/SCRIPT_2_Ajax.json" (run W0 [AddFile "/data/SCRIPT_1_Ajax.json"] fresh)
  = (Ok tt, run W0 [AddFile "/data/SCRIPT_1_Ajax.json"; AddFile "/data/SCRIPT_2_Ajax.json"] fresh)
  /\ exists df,
       dfs (self (run W0 [AddFile "/data/SCRIPT_1_Ajax.json";
                          AddFile "/data/SCRIPT_2_Ajax.json"] fresh))
       = (dfs (self (run W0 [AddFile "/data/SCRIPT_1_Ajax.json"] fresh)) ++ [df])%list.
Proof.
  split; [reflexivity|].
  destruct (proj1 (proj2 (registry_same_length W0 [AddFile "/data/SCRIPT_1_Ajax.json"]))
              "/data/SCRIPT_2_Ajax.json"
              (run W0 [AddFile "/data/SCRIPT_1_Ajax.json"; AddFile "/data/SCRIPT_2_Ajax.json"] fresh)
              eq_refl) as [df [H _]].
  exists df. exact H.
Defined.

(* ================================================================== *)
(** ** The loader *)
(* ================================================================== *)

(** C5 (the code departs from it). For an existing file whose extension
    is none of the three, [read] raises the exception of the catch-all
    clause, the read error, with the text of the unsupported-format
    error inside it: the [raise] of the unsupported format sits inside
    the [try]. *)
Theorem read_unsupported_is_wrapped (W : World) (path : string) :
  let ext := Py.lower (snd (Py.splitext path)) in
  isfile W path = true ->
  ext <> ".xlsx" -> ext <> ".json" -> ext <> ".txt" ->
  read W path = Raise (ReadError (exn_str (UnsupportedFormat ext)))
  /\ read W path <> Raise (UnsupportedFormat ext).
Proof.
  intros ext Hf Hx Hj Ht.
  assert (E : read W path = Raise (ReadError (exn_str (UnsupportedFormat ext)))).
  { unfold read, read_try. rewrite Hf. cbn [negb]. fold ext.
    apply String.eqb_neq in Hx, Hj, Ht. rewrite Hx, Hj, Ht. reflexivity. }
  split; [exact E|].
  rewrite E. unfold ReadError, UnsupportedFormat. simpl. intros H. inversion H.
Qed.

Lemma read_unsupported_is_wrapped_witness :
  isfile W0 "/data/players.csv" = true
  /\ read W0 "/data/players.csv"
     = Raise (ValueError "Error reading file: Format '.csv' not supported.").
Proof.
  split; [reflexivity|].
  apply (proj1 (read_unsupported_is_wrapped W0 "/data/players.csv" eq_refl
                  ltac:(discriminate) ltac:(discriminate) ltac:(discriminate))).
Defined.

(* ================================================================== *)
(** ** The output basename *)
(* ================================================================== *)








(** C3 (the code departs from it). [save] never gets to the [.txt] file:
    the call of [to_json] before it passes the keyword [encoding], which
    [to_json] does not have, and raises a [TypeError].  So [save] never
    returns, a text file on the disk after [save] was there before with
    the same text, and with a directory, a registry that merges and a
    disk that takes the [.xlsx] file, [save] ends in that [TypeError]
    with the [.xlsx] file as its only trace.  There is no [.txt] output
    to load again. *)
Theorem save_stops_before_txt (W : World) (folder : string) (m : Machine) :
  (exists e, fst (save W folder m) = Raise e)
  /\ (forall p text, file p (disk (snd (save W folder m))) = Some (Text text) ->
        file p (disk m) = Some (Text text))
  /\ (forall merged,
        isdir W folder = true ->
        fst (merge_all m) = Ok merged ->
        write_error W (output_base W folder m ++ ".xlsx") (Excel merged) = None ->
        save W folder m
        = (Raise unexpected_encoding,
           {| self := self m;
              disk := store (output_base W folder m ++ ".xlsx") (Excel merged) (disk m) |})).
Proof.
  split; [apply save_raises|]. split.
  - intros p text. rewrite save_outcome.
    destruct (negb (isdir W folder)); [intros H; exact H|].
    destruct (fst (merge_all m)); [|intros H; exact H].
    destruct (write_error W _ _); [intros H; exact H|].
    cbn [snd disk]. rewrite file_store.
    destruct (String.eqb _ p); [intros H; discriminate H | intros H; exact H].
  - intros merged Hd Hm Hw. rewrite save_outcome, Hd, Hm, Hw. reflexivity.
Qed.

Lemma save_stops_before_txt_witness :
  isdir W0 "/out" = true
  /\ fst (merge_all (holding [players_a; players_b])) = Ok players_ratings
  /\ save W0 "/out" (holding [players_a; players_b])
     = (Raise (LibraryError "TypeError"
                 "NDFrame.to_json() got an unexpected keyword argument 'encoding'"),
        {| self := self (holding [players_a; players_b]);
           disk := [("/out/Data_Ajax_20250704.xlsx", Excel players_ratings)] |}).
Proof.
  split; [reflexivity|]. split; [vm_compute; reflexivity|].
  exact (proj2 (proj2 (save_stops_before_txt W0 "/out" (holding [players_a; players_b])))
           players_ratings eq_refl eq_refl eq_refl).
Defined.


(* ================================================================== *)
(** ** More on the joined table: shape, row count, IDs, labels *)
(* ================================================================== *)

Section JoinShape.

Lemma without_length {A : Type} (k : nat) (l : list A) :
  k < List.length l -> List.length (without k l) = List.length l - 1.
Proof.
  intros H. unfold without. rewrite length_app, length_firstn, length_skipn. lia.
Qed.

Lemma In_without {A : Type} (k : nat) (l : list A) (x : A) :
  In x (without k l) -> In x l.
Proof.
  unfold without. intros H. rewrite <- (firstn_skipn k l).
  apply in_app_or in H. apply in_or_app. destruct H as [H|H]; [left; exact H|].
  right. destruct (skipn k l) as [|y s] eqn:E.
  - replace (skipn (S k) l) with (@nil A) in H; [exact H|].
    symmetry. rewrite <- (Nat.add_1_l k), <- skipn_skipn, E. reflexivity.
  - right. replace (skipn (S k) l) with s in H; [exact H|].
    rewrite <- (Nat.add_1_l k), <- skipn_skipn, E. reflexivity.
Qed.

(** A label that is not the key survives the removal of the key column. *)
Lemma In_without_key (key c : string) (cols : list string) :
  forall k, index_of key cols = Some k -> In c cols -> c <> key -> In c (without k cols).
Proof.
  induction cols as [|d cols IH]; intros k Hk Hin Hne; [destruct Hin|].
  simpl in Hk. destruct (String.eqb key d) eqn:E.
  - inversion Hk; subst k. apply String.eqb_eq in E. subst d.
    destruct Hin as [Heq|Hin]; [congruence|]. exact Hin.
  - destruct (index_of key cols) as [i|]; [|discriminate Hk]. inversion Hk; subst k.
    unfold without. cbn [firstn skipn app].
    destruct Hin as [<-|Hin]; [left; reflexivity|].
    right. apply (IH i eq_refl Hin Hne).
Qed.

Lemma at_col_app (k : nat) (a x : list cell) :
  k < List.length a -> at_col k (a ++ x)%list = at_col k a.
Proof. intros H. unfold at_col. apply app_nth1. exact H. Qed.

(** Every row of a block is the left row and as many cells as the right
    frame has non-key columns. *)
Lemma spec_block_row_length (kl kr : nat) (acc right : DataFrame) (a o : list cell) :
  kr < List.length (columns right) ->
  rectangular right ->
  In o (spec_block kl kr acc right a) ->
  List.length o = List.length a + (List.length (columns right) - 1).
Proof.
  intros Hk Hr Ho. unfold spec_block in Ho.
  destruct (spec_matching kl kr acc right a) as [|b bs] eqn:E.
  - destruct Ho as [<-|[]]. rewrite length_app, repeat_length. reflexivity.
  - apply in_map_iff in Ho. destruct Ho as [b' [<- Hb']].
    rewrite <- E in Hb'. unfold spec_matching in Hb'. apply filter_In in Hb'.
    destruct Hb' as [Hb' _]. unfold rectangular in Hr.
    rewrite Forall_forall in Hr. specialize (Hr b' Hb').
    rewrite length_app, conversion_length, without_length by lia. lia.
Qed.

End JoinShape.

(** One accepted join. *)
Section OneJoin.

Variables acc right : DataFrame.
Variables kl kr : nat.
Hypothesis Hacc : accepts acc right = true.
Hypothesis Hkl : index_of REQUIRED_COL (columns acc) = Some kl.
Hypothesis Hkr : index_of REQUIRED_COL (columns right) = Some kr.

Let joined : DataFrame := spec_left_join REQUIRED_COL acc right.

Lemma joined_rows :
  rows joined = flat_map (spec_block kl kr acc right) (rows acc).
Proof. unfold joined, spec_left_join. rewrite Hkl, Hkr. reflexivity. Qed.

Lemma joined_columns :
  columns joined = merged_columns kr (columns acc) (columns right).
Proof. unfold joined, spec_left_join. rewrite Hkl, Hkr. reflexivity. Qed.

Lemma joined_key : index_of REQUIRED_COL (columns joined) = Some kl.
Proof. apply spec_left_join_key; assumption. Qed.

Lemma joined_width : width joined + 1 = width acc + width right.
Proof.
  unfold width. rewrite joined_columns. unfold merged_columns.
  rewrite length_app, !length_map, without_length by (eapply index_of_bound; exact Hkr).
  pose proof (index_of_bound _ _ _ Hkr). lia.
Qed.

Lemma joined_rectangular :
  rectangular acc -> rectangular right -> rectangular joined.
Proof.
  intros Ha Hr. unfold rectangular. rewrite joined_rows.
  apply Forall_forall. intros o Ho. apply in_flat_map in Ho. destruct Ho as [a [Ha' Ho]].
  unfold rectangular in Ha. rewrite Forall_forall in Ha. specialize (Ha a Ha').
  rewrite (spec_block_row_length kl kr acc right a o);
    [|eapply index_of_bound; exact Hkr | exact Hr | exact Ho].
  pose proof joined_width. pose proof (index_of_bound _ _ _ Hkr).
  unfold width in *. lia.
Qed.

Lemma joined_rows_at_least : List.length (rows acc) <= List.length (rows joined).
Proof.
  rewrite joined_rows. induction (rows acc) as [|a l IH]; simpl; [lia|].
  rewrite length_app, spec_block_length. lia.
Qed.

Lemma block_ids (a : list cell) :
  kl < List.length a ->
  forall o, In o (spec_block kl kr acc right a) ->
  at_col kl o = at_col kl a.
Proof.
  intros Hlen o Ho.
  pose proof (spec_block_prefix kl kr acc right a o Ho) as P.
  rewrite <- (firstn_skipn (List.length a) o), P.
  apply at_col_app. exact Hlen.
Qed.

Lemma joined_ids_same :
  rectangular acc -> forall v, In v (ids joined) <-> In v (ids acc).
Proof.
  unfold rectangular. intros Hrect v.
  rewrite (ids_at _ _ joined_key), (ids_at _ _ Hkl), joined_rows.
  pose proof (index_of_bound _ _ _ Hkl) as Hb.
  unfold column. rewrite !in_map_iff. split.
  - intros [o [<- Ho]]. apply in_flat_map in Ho. destruct Ho as [a [Ha Ho]].
    exists a. split; [|exact Ha]. symmetry. apply block_ids; [|exact Ho].
    rewrite Forall_forall in Hrect. rewrite (Hrect a Ha). exact Hb.
  - intros [a [<- Ha]].
    destruct (spec_block kl kr acc right a) as [|o os] eqn:E.
    + exfalso. exact (spec_block_nonempty _ _ _ _ _ E).
    + exists o. split.
      * apply block_ids; [|rewrite E; left; reflexivity].
        rewrite Forall_forall in Hrect. rewrite (Hrect a Ha). exact Hb.
      * apply in_flat_map. exists a. split; [exact Ha | rewrite E; left; reflexivity].
Qed.

End OneJoin.

(** The same along the fold of [merge_all]. *)
Section Fold.

Let J : DataFrame -> DataFrame -> DataFrame := spec_left_join REQUIRED_COL.

Lemma fold_has_ID (ts : list DataFrame) :
  forall t, has_ID t -> joinable t ts = true -> has_ID (fold_left J ts t).
Proof.
  induction ts as [|d ts IH]; intros t Ht H; [exact Ht|].
  simpl in H. apply andb_prop in H. destruct H as [Hd Hts].
  simpl. apply IH; [|exact Hts]. apply spec_left_join_keeps_key. exact Hd.
Qed.

Lemma fold_rows_at_least (ts : list DataFrame) :
  forall t, joinable t ts = true ->
  List.length (rows t) <= List.length (rows (fold_left J ts t)).
Proof.
  induction ts as [|d ts IH]; intros t H; simpl; [lia|].
  simpl in H. apply andb_prop in H. destruct H as [Hd Hts].
  destruct (accepts_has_ID _ _ Hd) as [Ht Hd'].
  destruct (has_ID_index t Ht) as [kl Hkl]. destruct (has_ID_index d Hd') as [kr Hkr].
  pose proof (joined_rows_at_least t d kl kr Hkl Hkr) as L.
  specialize (IH (J t d) Hts). unfold J in *. lia.
Qed.

Lemma fold_shape (ts : list DataFrame) :
  forall t, joinable t ts = true -> Forall rectangular (t :: ts) ->
  rectangular (fold_left J ts t)
  /\ width (fold_left J ts t) + List.length ts = list_sum (map width (t :: ts)).
Proof.
  induction ts as [|d ts IH]; intros t H R.
  - inversion R; subst. simpl. split; [assumption | lia].
  - simpl in H. apply andb_prop in H. destruct H as [Hd Hts].
    inversion R as [|? ? Rt Rts]; subst. inversion Rts as [|? ? Rd Rts']; subst.
    destruct (accepts_has_ID _ _ Hd) as [Ht Hd'].
    destruct (has_ID_index t Ht) as [kl Hkl]. destruct (has_ID_index d Hd') as [kr Hkr].
    assert (R' : Forall rectangular (J t d :: ts)).
    { constructor; [apply (joined_rectangular t d kl kr Hkl Hkr Rt Rd) | exact Rts']. }
    destruct (IH (J t d) Hts R') as [IHr IHw]. split; [exact IHr|].
    pose proof (joined_width t d kl kr Hkl Hkr) as W.
    cbn [fold_left map list_sum fold_right List.length] in *. unfold J in *. lia.
Qed.

Lemma fold_ids (ts : list DataFrame) :
  forall t, joinable t ts = true -> Forall rectangular (t :: ts) ->
  forall v, In v (ids (fold_left J ts t)) <-> In v (ids t).
Proof.
  induction ts as [|d ts IH]; intros t H R v; [reflexivity|].
  simpl in H. apply andb_prop in H. destruct H as [Hd Hts].
  inversion R as [|? ? Rt Rts]; subst. inversion Rts as [|? ? Rd Rts']; subst.
  destruct (accepts_has_ID _ _ Hd) as [Ht Hd'].
  destruct (has_ID_index t Ht) as [kl Hkl]. destruct (has_ID_index d Hd') as [kr Hkr].
  simpl. rewrite IH.
  - apply (joined_ids_same t d kl kr Hd Hkl Hkr Rt).
  - exact Hts.
  - constructor; [apply (joined_rectangular t d kl kr Hkl Hkr Rt Rd) | exact Rts'].
Qed.

End Fold.

Lemma merge_all_as_fold (m : Machine) (t : DataFrame) (ts : list DataFrame) :
  dfs (self m) = t :: ts -> joinable t ts = true ->
  merge_all m = (Ok (fold_left (spec_left_join REQUIRED_COL) ts t), m).
Proof.
  intros Hd Hall.
  rewrite (merge_all_eq m t ts Hd), (merge_loop_is_fold ts t Hall). reflexivity.
Qed.

(** X1. The table [merge_all] returns for rectangular tables whose joins
    pandas accepts is rectangular again, has the ID column, and has the
    columns of all the tables, the ID column counted once. *)
Theorem merge_all_shape (m : Machine) (t : DataFrame) (ts : list DataFrame) :
  dfs (self m) = t :: ts ->
  has_ID t ->
  joinable t ts = true ->
  Forall rectangular (t :: ts) ->
  exists out : DataFrame,
    merge_all m = (Ok out, m)
    /\ has_ID out
    /\ rectangular out
    /\ width out + List.length ts = list_sum (map width (t :: ts)).
Proof.
  intros Hd Ht Hall Hrect. exists (fold_left (spec_left_join REQUIRED_COL) ts t).
  split; [apply merge_all_as_fold; assumption|].
  split; [apply fold_has_ID; assumption|].
  apply fold_shape; assumption.
Qed.

(** X2. A merge never loses a row of the first table: the table it
    returns has at least as many rows. *)
Theorem merge_all_row_count (m : Machine) (t : DataFrame) (ts : list DataFrame) :
  dfs (self m) = t :: ts ->
  joinable t ts = true ->
  exists out : DataFrame,
    merge_all m = (Ok out, m)
    /\ List.length (rows t) <= List.length (rows out).
Proof.
  intros Hd Hall. exists (fold_left (spec_left_join REQUIRED_COL) ts t).
  split; [apply merge_all_as_fold; assumption|].
  apply fold_rows_at_least. exact Hall.
Qed.

(** X3. The ID values of the merged table are those of the first table:
    a merge brings in no ID from a later table and drops none. *)
Theorem merge_all_ids (m : Machine) (t : DataFrame) (ts : list DataFrame) :
  dfs (self m) = t :: ts ->
  joinable t ts = true ->
  Forall rectangular (t :: ts) ->
  exists out : DataFrame,
    merge_all m = (Ok out, m)
    /\ forall v, In v (ids out) <-> In v (ids t).
Proof.
  intros Hd Hall Hrect. exists (fold_left (spec_left_join REQUIRED_COL) ts t).
  split; [apply merge_all_as_fold; assumption|].
  apply fold_ids; assumption.
Qed.

Lemma two_tables_rectangular : Forall rectangular [players_a; players_b].
Proof.
  constructor; [|constructor; [|constructor]];
    unfold rectangular; simpl; repeat constructor.
Qed.

Lemma merge_all_shape_witness :
  exists out : DataFrame,
    merge_all (holding [players_a; players_b]) = (Ok out, holding [players_a; players_b])
    /\ width out + 1 = 2 + 2.
Proof.
  destruct (merge_all_shape (holding [players_a; players_b]) players_a [players_b] eq_refl
              eq_refl eq_refl two_tables_rectangular) as [out [E [_ [_ W]]]].
  exists out. split; [exact E | exact W].
Defined.

Lemma merge_all_row_count_witness :
  exists out : DataFrame,
    merge_all (holding [players_a; players_b]) = (Ok out, holding [players_a; players_b])
    /\ 2 <= List.length (rows out).
Proof.
  destruct (merge_all_row_count (holding [players_a; players_b]) players_a [players_b] eq_refl
              eq_refl) as [out [E L]].
  exists out. split; [exact E | exact L].
Defined.

Lemma merge_all_ids_witness :
  exists out : DataFrame,
    merge_all (holding [players_a; players_b]) = (Ok out, holding [players_a; players_b])
    /\ (In (Int 2) (ids out) <-> In (Int 2) (ids players_a)).
Proof.
  destruct (merge_all_ids (holding [players_a; players_b]) players_a [players_b] eq_refl
              eq_refl two_tables_rectangular) as [out [E I]].
  exists out. split; [exact E | exact (I (Int 2))].
Defined.

(** X20. The labels of the table that joins two tables, the join being
    accepted: a label of the first table that is the key or that the
    second table does not have is kept; a label of the second table other
    than the key that the first does not have is kept; a label other than
    the key that both have appears twice, with [_x] for the first table's
    column and [_y] for the second's.  No column is dropped. *)
Theorem merge_all_column_names (m : Machine) (A B : DataFrame) :
  dfs (self m) = [A; B] ->
  accepts A B = true ->
  exists out : DataFrame,
    merge_all m = (Ok out, m)
    /\ (forall c, In c (columns A) -> c = REQUIRED_COL \/ ~ In c (columns B) ->
          In c (columns out))
    /\ (forall c, In c (columns B) -> c <> REQUIRED_COL -> ~ In c (columns A) ->
          In c (columns out))
    /\ (forall c, In c (columns A) -> In c (columns B) -> c <> REQUIRED_COL ->
          In (c ++ "_x") (columns out) /\ In (c ++ "_y") (columns out))
    /\ width out + 1 = width A + width B.
Proof.
  intros Hd Hacc.
  assert (Hall : joinable A [B] = true) by (simpl; rewrite Hacc; reflexivity).
  exists (spec_left_join REQUIRED_COL A B).
  split; [exact (merge_all_as_fold m A [B] Hd Hall)|].
  destruct (accepts_has_ID _ _ Hacc) as [Ha Hb].
  destruct (has_ID_index A Ha) as [kl Hkl]. destruct (has_ID_index B Hb) as [kr Hkr].
  pose proof (joined_width A B kl kr Hkl Hkr) as Wd.
  rewrite (joined_columns A B kl kr Hkl Hkr).
  destruct (accepts_parts _ _ Hacc) as [_ [Cr _]].
  pose proof (without_key_free _ _ kr Hkr Cr) as Hfree.
  unfold merged_columns. repeat split.
  - intros c Hc Hcase. apply in_or_app. left. apply in_map_iff. exists c. split; [|exact Hc].
    unfold suffixed. destruct Hcase as [->|Hn].
    + rewrite Hfree. reflexivity.
    + replace (mem c (without kr (columns B))) with false; [reflexivity|].
      symmetry. apply mem_not_In. intros Hin. apply Hn. exact (In_without _ _ _ Hin).
  - intros c Hc Hne Hn. apply in_or_app. right. apply in_map_iff. exists c. split.
    + unfold suffixed. apply mem_not_In in Hn. rewrite Hn. reflexivity.
    + apply (In_without_key REQUIRED_COL c (columns B) kr Hkr Hc Hne).
  - apply in_or_app. left. apply in_map_iff. exists c. split; [|assumption].
    unfold suffixed.
    replace (mem c (without kr (columns B))) with true; [reflexivity|].
    symmetry. apply mem_In. apply (In_without_key REQUIRED_COL c (columns B) kr Hkr); assumption.
  - apply in_or_app. right. apply in_map_iff. exists c. split.
    + unfold suffixed. apply mem_In in H. rewrite H. reflexivity.
    + apply (In_without_key REQUIRED_COL c (columns B) kr Hkr H0 H1).
  - exact Wd.
Qed.

Lemma merge_all_column_names_witness :
  exists out : DataFrame,
    merge_all (holding [players_b; club_ratings])
    = (Ok out, holding [players_b; club_ratings])
    /\ In "Rating_x" (columns out) /\ In "Rating_y" (columns out).
Proof.
  destruct (merge_all_column_names (holding [players_b; club_ratings])
              players_b club_ratings eq_refl eq_refl) as [out [E [_ [_ [Hxy _]]]]].
  exists out. split; [exact E|].
  apply (Hxy "Rating"); [right; left; reflexivity | right; right; left; reflexivity | discriminate].
Defined.

(* ================================================================== *)
(** ** Text: cutting, joining, stripping *)
(* ================================================================== *)

Section Strings.

Lemma split_nonempty (sep : ascii) (s : string) : Py.split sep s <> [].
Proof.
  destruct s as [|c s]; simpl; [discriminate|].
  destruct (Ascii.eqb c sep); [discriminate|].
  destruct (Py.split sep s); discriminate.
Qed.

Lemma rstrip_cons (c : ascii) (s : string) :
  Py.rstrip (String c s)
  = match Py.rstrip s with
    | EmptyString => if Py.isspace c then EmptyString else String c EmptyString
    | r => String c r
    end.
Proof. reflexivity. Qed.

End Strings.

(* ================================================================== *)
(** ** More on the registry: what every reachable state satisfies *)
(* ================================================================== *)

Section Reachable.

Variable W : World.

Lemma registry_ok_fresh : registry_ok fresh.
Proof.
  split; [constructor|].
  split; [left; reflexivity | reflexivity].
Qed.

Lemma registry_ok_added (path : string) (df : DataFrame) (m : Machine) :
  has_ID df -> registry_ok m -> registry_ok (added path df m).
Proof.
  intros K [Hid [Hname Hempty]]. unfold registry_ok, named_after_source, added.
  cbn [self dfs paths team_name]. repeat split.
  - apply Forall_app. split; [exact Hid | constructor; [exact K | constructor]].
  - destruct (String.eqb (team_name (self m)) "") eqn:E.
    + right. exists path. split; [apply in_or_app; right; left; reflexivity | reflexivity].
    + destruct Hname as [Hn|[p [Hp Hn]]].
      * rewrite Hn in E. discriminate E.
      * right. exists p. split; [apply in_or_app; left; exact Hp | exact Hn].
  - intros H. destruct (dfs (self m)); discriminate H.
Qed.

Lemma registry_ok_step (m : Machine) (c : call) :
  registry_ok m -> registry_ok (step W m c).
Proof.
  intros H. destruct c as [path| | |folder]; unfold step, discard.
  - destruct (add_file_cases W path m) as [[e [E _]]|[df [R [K E]]]]; rewrite E; cbn [snd].
    + exact H.
    + apply registry_ok_added; assumption.
  - rewrite reset_all_eq. cbn [snd].
    split; [constructor|].
    split; [left; reflexivity | reflexivity].
  - rewrite merge_all_pure. exact H.
  - pose proof (save_self W folder m) as S.
    unfold registry_ok, named_after_source in *. rewrite S. exact H.
Qed.

Lemma registry_ok_run (calls : list call) :
  forall m, registry_ok m -> registry_ok (run W calls m).
Proof.
  unfold run. induction calls as [|c calls IH]; intros m H; simpl; [exact H|].
  apply IH. apply registry_ok_step. exact H.
Qed.

End Reachable.

(** A join of two frames that have the ID raises no [KeyError]. *)
Lemma merge_raises_with_keys (acc right : DataFrame) (e : exn) :
  has_ID acc -> has_ID right ->
  merge acc right REQUIRED_COL = Raise e ->
  (exists msg, e = ValueError msg) \/ (exists msg, e = LibraryError "MergeError" msg).
Proof.
  intros Ha Hr. apply has_ID_index in Ha. destruct Ha as [kl Hkl].
  apply has_ID_index in Hr. destruct Hr as [kr Hkr].
  unfold merge, key_position. rewrite Hkl, Hkr.
  destruct (1 <? count REQUIRED_COL (columns right))%nat.
  { intros H. inversion H. left. eexists. reflexivity. }
  destruct (1 <? count REQUIRED_COL (columns acc))%nat.
  { intros H. inversion H. left. eexists. reflexivity. }
  destruct (incompatible _ _ _ _).
  { intros H. inversion H. left. eexists. reflexivity. }
  destruct (clashes _ _); [discriminate|].
  intros H. inversion H. right. eexists. reflexivity.
Qed.

Lemma merge_loop_with_keys (ts : list DataFrame) :
  forall t, Forall has_ID (t :: ts) ->
  (joinable t ts = true
   /\ merge_loop t ts = Ok (fold_left (spec_left_join REQUIRED_COL) ts t)
   /\ has_ID (fold_left (spec_left_join REQUIRED_COL) ts t))
  \/ (joinable t ts = false
      /\ exists e, merge_loop t ts = Raise e
                   /\ ((exists msg, e = ValueError msg)
                       \/ (exists msg, e = LibraryError "MergeError" msg))).
Proof.
  induction ts as [|d ts IH]; intros t H.
  - left. inversion H; subst. repeat split. assumption.
  - inversion H as [|? ? Ht Hts]; subst. inversion Hts as [|? ? Hd Hts']; subst.
    cbn [joinable merge_loop fold_left].
    destruct (accepts t d) eqn:A.
    + rewrite (merge_is_spec_left_join t d A). cbn [andb].
      apply IH. constructor; [|exact Hts'].
      apply spec_left_join_keeps_key. exact A.
    + right. split; [reflexivity|].
      destruct (merge_refused t d A) as [e E]. rewrite E.
      exists e. split; [reflexivity|].
      exact (merge_raises_with_keys t d e Ht Hd E).
Qed.

(** X5. In every state the calls can reach, every registered frame has
    the ID column: the check of [add_file] holds for the whole registry. *)
Theorem registry_frames_have_ID (W : World) (calls : list call) :
  let m := run W calls fresh in
  Forall has_ID (dfs (self m)).
Proof.
  intros m. destruct (registry_ok_run W calls fresh registry_ok_fresh) as [Hid _].
  exact Hid.
Qed.

(** X6. In every state the calls can reach, [merge_all] never fails on a
    missing key.  On the empty registry it raises [NoFilesToMerge]; on
    any other it returns a table with the ID column, or raises the
    [ValueError] or the [MergeError] of a join that pandas refuses. *)
Theorem merge_all_reachable (W : World) (calls : list call) :
  let m := run W calls fresh in
  (dfs (self m) = [] /\ merge_all m = (Raise NoFilesToMerge, m))
  \/ (dfs (self m) <> []
      /\ ((exists out, merge_all m = (Ok out, m) /\ has_ID out)
          \/ (exists e, merge_all m = (Raise e, m)
                        /\ ((exists msg, e = ValueError msg)
                            \/ (exists msg, e = LibraryError "MergeError" msg))
                        /\ e <> KeyError REQUIRED_COL
                        /\ e <> MissingKeyColumn))).
Proof.
  intros m. destruct (registry_ok_run W calls fresh registry_ok_fresh) as [Hid _].
  fold m in Hid. destruct (dfs (self m)) as [|t ts] eqn:E.
  - left. split; [reflexivity|]. unfold merge_all. run_method. rewrite E. reflexivity.
  - right. split; [discriminate|].
    rewrite (merge_all_eq m t ts E).
    destruct (merge_loop_with_keys ts t Hid) as [[J [L K]]|[J [e [L C]]]]; rewrite L.
    + left. eexists. split; [reflexivity | exact K].
    + right. exists e. split; [reflexivity|]. split; [exact C|].
      destruct C as [[msg ->]|[msg ->]]; split; discriminate.
Qed.

(** X7. In every state the calls can reach, the team name is empty or is
    the name extracted from one of the registered paths, and it is empty
    whenever the registry is. *)
Theorem team_name_from_registry (W : World) (calls : list call) :
  let m := run W calls fresh in
  (team_name (self m) = ""
   \/ exists p, In p (paths (self m)) /\ team_name (self m) = extract_team_name p)
  /\ (dfs (self m) = [] -> team_name (self m) = "").
Proof.
  intros m. destruct (registry_ok_run W calls fresh registry_ok_fresh) as [_ [Hn He]].
  split; assumption.
Qed.

Lemma team_name_from_registry_witness :
  dfs (self (run W0 [AddFile "/data/SCRIPT_1_Ajax.json"; ResetAll] fresh)) = []
  /\ team_name (self (run W0 [AddFile "/data/SCRIPT_1_Ajax.json"; ResetAll] fresh)) = "".
Proof.
  split; [reflexivity|].
  apply (proj2 (team_name_from_registry W0 [AddFile "/data/SCRIPT_1_Ajax.json"; ResetAll])).
  reflexivity.
Defined.

(* ================================================================== *)
(** ** More on [read], [merge_all] and [save]: errors and effects *)
(* ================================================================== *)

Lemma read_try_ok_ext (W : World) (path ext : string) (df : DataFrame) :
  read_try W path ext = Ok df -> ext = ".xlsx" \/ ext = ".json" \/ ext = ".txt".
Proof.
  unfold read_try. intros H.
  destruct (String.eqb ext ".xlsx") eqn:X; [left; apply String.eqb_eq; exact X|].
  destruct (String.eqb ext ".json") eqn:J; [right; left; apply String.eqb_eq; exact J|].
  destruct (String.eqb ext ".txt") eqn:T; [right; right; apply String.eqb_eq; exact T|].
  discriminate H.
Qed.

Lemma read_except_value (e : exn) : exists msg, read_except e = ValueError msg.
Proof. destruct e; simpl; eauto. Qed.

(** X8. [read] raises [FileNotFoundError] exactly for a path that is no
    file, whatever its extension; for an existing file every failure is a
    [ValueError]; and it returns a frame only for an existing file whose
    extension, in lower case, is [.xlsx], [.json] or [.txt]. *)
Theorem read_outcomes (W : World) (path : string) :
  (isfile W path = false -> read W path = Raise (NotFound path))
  /\ (isfile W path = true ->
      forall e, read W path = Raise e -> exists msg, e = ValueError msg)
  /\ (forall df, read W path = Ok df ->
        isfile W path = true
        /\ let ext := Py.lower (snd (Py.splitext path)) in
           ext = ".xlsx" \/ ext = ".json" \/ ext = ".txt").
Proof.
  unfold read. split; [|split].
  - intros H. rewrite H. reflexivity.
  - intros H e. rewrite H. cbn [negb].
    destruct (read_try W path _) as [df|e']; [discriminate|].
    intros E. inversion E. apply read_except_value.
  - intros df. destruct (isfile W path); cbn [negb]; [|discriminate].
    destruct (read_try W path _) as [df'|e'] eqn:T; [|discriminate].
    intros _. split; [reflexivity|]. cbn zeta. eapply read_try_ok_ext. exact T.
Qed.

Lemma read_outcomes_witness :
  isfile W0 "/data/missing.xlsx" = false
  /\ read W0 "/data/missing.xlsx" = Raise (FileNotFoundError "File not found: /data/missing.xlsx").
Proof.
  split; [reflexivity|].
  apply (proj1 (read_outcomes W0 "/data/missing.xlsx")). reflexivity.
Defined.

(** X9. On an empty registry [merge_all] raises [NoFilesToMerge]; so does
    [save] into a valid folder, before any file is created; and after a
    reset [merge_all] always raises it. *)
Theorem nothing_to_merge (W : World) (folder : string) (m : Machine) :
  (dfs (self m) = [] ->
   merge_all m = (Raise NoFilesToMerge, m)
   /\ (isdir W folder = true -> save W folder m = (Raise NoFilesToMerge, m)))
  /\ fst (merge_all (snd (reset_all m))) = Raise NoFilesToMerge.
Proof.
  split; [|reflexivity].
  intros H.
  assert (E : merge_all m = (Raise NoFilesToMerge, m)).
  { unfold merge_all. run_method. rewrite H. reflexivity. }
  split; [exact E|].
  intros D. unfold save. rewrite D. cbn [negb]. unfold bind at 1. rewrite E. reflexivity.
Qed.

Lemma nothing_to_merge_witness :
  dfs (self fresh) = []
  /\ isdir W0 "/out" = true
  /\ save W0 "/out" fresh = (Raise (ValueError "No files to merge."), fresh).
Proof.
  split; [reflexivity|]. split; [reflexivity|].
  apply (proj1 (nothing_to_merge W0 "/out" fresh) eq_refl). reflexivity.
Defined.






(* ================================================================== *)
(** ** More on the extracted team name *)
(* ================================================================== *)

Section Pieces.

Variable c : ascii.

Lemma substring_all (s : string) : String.substring 0 (String.length s) s = s.
Proof. induction s as [|d s IH]; simpl; [reflexivity | rewrite IH; reflexivity]. Qed.

(** A piece of a text holds no character the text does not hold. *)
Lemma occurs_substring (s : string) :
  forall n m, Py.occurs c (String.substring n m s) = true -> Py.occurs c s = true.
Proof.
  induction s as [|d s IH]; intros n m H.
  - destruct n, m; simpl in H; discriminate H.
  - destruct n as [|n].
    + destruct m as [|m]; simpl in H; [discriminate H|].
      simpl. apply orb_true_iff in H. destruct H as [H|H]; [rewrite H; reflexivity|].
      rewrite (IH 0 m H). apply orb_true_r.
    + simpl in H. simpl. rewrite (IH n m H). apply orb_true_r.
Qed.

Lemma occurs_replace_from (old s : string) :
  forall skip, Py.occurs c (Py.replace_from old "" skip s) = true -> Py.occurs c s = true.
Proof.
  induction s as [|d s IH]; intros skip H; [destruct skip; discriminate H|].
  cbn [Py.replace_from] in H. simpl Py.occurs.
  destruct skip as [|k].
  - destruct (String.prefix old (String d s)).
    + cbn [String.append] in H. rewrite (IH _ H). apply orb_true_r.
    + simpl in H. apply orb_true_iff in H. destruct H as [H|H]; [rewrite H; reflexivity|].
      rewrite (IH _ H). apply orb_true_r.
  - rewrite (IH _ H). apply orb_true_r.
Qed.

Lemma occurs_split_piece (sep : ascii) (s : string) :
  forall p, In p (Py.split sep s) -> Py.occurs c p = true -> Py.occurs c s = true.
Proof.
  induction s as [|d s IH]; intros p Hin Hp.
  - destruct Hin as [<-|[]]. discriminate Hp.
  - simpl in Hin. simpl Py.occurs. destruct (Ascii.eqb d sep).
    + destruct Hin as [<-|Hin]; [discriminate Hp|].
      rewrite (IH p Hin Hp). apply orb_true_r.
    + destruct (Py.split sep s) as [|h t] eqn:E; [exfalso; exact (split_nonempty _ _ E)|].
      destruct Hin as [<-|Hin].
      * simpl in Hp. apply orb_true_iff in Hp. destruct Hp as [Hp|Hp]; [rewrite Hp; reflexivity|].
        rewrite (IH h (or_introl eq_refl) Hp). apply orb_true_r.
      * rewrite (IH p (or_intror Hin) Hp). apply orb_true_r.
Qed.

(** No piece of a cut text holds the separator. *)
Lemma split_piece_no_sep (s : string) :
  forall p, In p (Py.split c s) -> Py.occurs c p = false.
Proof.
  induction s as [|d s IH]; intros p Hin.
  - destruct Hin as [<-|[]]. reflexivity.
  - simpl in Hin. destruct (Ascii.eqb d c) eqn:D.
    + destruct Hin as [<-|Hin]; [reflexivity | apply IH; exact Hin].
    + destruct (Py.split c s) as [|h t] eqn:E; [exfalso; exact (split_nonempty _ _ E)|].
      destruct Hin as [<-|Hin].
      * simpl. rewrite D. apply IH. left. reflexivity.
      * apply IH. right. exact Hin.
Qed.

Lemma hd_split_in (sep : ascii) (s : string) :
  In (hd EmptyString (Py.split sep s)) (Py.split sep s).
Proof.
  destruct (Py.split sep s) as [|h t] eqn:E; [exfalso; exact (split_nonempty _ _ E)|].
  left. reflexivity.
Qed.

(** Where [rfind] points, the character sought does not occur again. *)
Lemma rfind_from_last (s : string) :
  forall i found, (found < i)%Z ->
  let r := Py.rfind_from c s i found in
  (r = found /\ Py.occurs c s = false)
  \/ ((i <= r)%Z
      /\ Py.occurs c (String.substring (S (Z.to_nat (r - i)))
                        (String.length s - S (Z.to_nat (r - i))) s) = false).
Proof.
  induction s as [|d s IH]; intros i found Hlt; [left; split; reflexivity|].
  cbn [Py.rfind_from]. cbn zeta.
  assert (Hlt' : ((if Ascii.eqb d c then i else found) < i + 1)%Z)
    by (destruct (Ascii.eqb d c); lia).
  destruct (IH (i + 1)%Z _ Hlt') as [[Hr Ho]|[Hle Ho]].
  - destruct (Ascii.eqb d c) eqn:D.
    + right. rewrite Hr. split; [lia|].
      replace (Z.to_nat (i - i)) with 0 by lia.
      cbn [String.substring String.length Nat.sub]. rewrite Nat.sub_0_r, substring_all. exact Ho.
    + left. split; [exact Hr|]. simpl. rewrite D, Ho. reflexivity.
  - right. split; [lia|].
    set (r := Py.rfind_from c s (i + 1) (if Ascii.eqb d c then i else found)) in *.
    replace (Z.to_nat (r - i)) with (S (Z.to_nat (r - (i + 1)))) by lia.
    cbn [String.substring String.length Nat.sub]. exact Ho.
Qed.

End Pieces.

Lemma basename_no_sep (p : string) : Py.occurs Py.sep (Py.basename p) = false.
Proof.
  unfold Py.basename, Py.slice_from, Py.rfind.
  destruct (rfind_from_last Py.sep p 0 (-1) ltac:(lia)) as [[Hr Ho]|[Hle Ho]].
  - rewrite Hr. cbn [Z.add Z.to_nat]. rewrite Nat.sub_0_r, substring_all. exact Ho.
  - set (r := Py.rfind_from Py.sep p 0 (-1)) in *.
    replace (Z.to_nat (r + 1)) with (S (Z.to_nat (r - 0))) by lia. exact Ho.
Qed.

Lemma splitext_loop_some (p : string) (n : nat) :
  forall f d r, Py.splitext_loop p f d n = Some r ->
  r = (Py.slice_to p d, Py.slice_from p d).
Proof.
  induction n as [|n IH]; intros f d r H; [discriminate H|].
  cbn [Py.splitext_loop] in H.
  destruct (f <? d)%Z; [|discriminate H].
  destruct (String.get (Z.to_nat f) p) as [ch|]; [|discriminate H].
  destruct (Ascii.eqb ch Py.extsep); [apply (IH _ _ _ H)|].
  inversion H. reflexivity.
Qed.

Lemma splitext_fst (p : string) :
  fst (Py.splitext p) = p \/ exists n, fst (Py.splitext p) = String.substring 0 n p.
Proof.
  unfold Py.splitext.
  destruct (Py.rfind p Py.extsep >? Py.rfind p Py.sep)%Z; [|left; reflexivity].
  destruct (Py.splitext_loop p _ _ _) as [r|] eqn:E; [|left; reflexivity].
  apply splitext_loop_some in E. subst r. right. eexists. reflexivity.
Qed.

(** X13. The extracted team name never holds a path separator; for a file
    name that starts with [SCRIPT_1_] it holds no dot either. *)
Theorem extract_team_name_plain (path : string) :
  Py.occurs Py.sep (extract_team_name path) = false
  /\ (Py.startswith (Py.basename path) PREFIX = true ->
      Py.occurs "." (extract_team_name path) = false).
Proof.
  unfold extract_team_name, team_of_basename.
  pose proof (basename_no_sep path) as B.
  destruct (Py.startswith (Py.basename path) PREFIX); split.
  - set (rest := Py.replace (Py.basename path) PREFIX "").
    destruct (Py.occurs Py.sep (hd "" (Py.split "." rest))) eqn:E; [|reflexivity].
    apply (occurs_split_piece Py.sep "." rest _ (hd_split_in "." rest)) in E.
    unfold rest, Py.replace in E. apply (occurs_replace_from Py.sep PREFIX _ 0) in E. congruence.
  - intros _.
    apply (split_piece_no_sep "." (Py.replace (Py.basename path) PREFIX "")).
    apply hd_split_in.
  - destruct (Py.occurs Py.sep (fst (Py.splitext (Py.basename path)))) eqn:E; [|reflexivity].
    destruct (splitext_fst (Py.basename path)) as [F|[n F]]; rewrite F in E.
    + congruence.
    + apply occurs_substring in E. congruence.
  - intros H. discriminate H.
Qed.

Lemma extract_team_name_plain_witness :
  Py.startswith (Py.basename "/data/SCRIPT_1_Real.Madrid.json") PREFIX = true
  /\ extract_team_name "/data/SCRIPT_1_Real.Madrid.json" = "Real"
  /\ Py.occurs "." (extract_team_name "/data/SCRIPT_1_Real.Madrid.json") = false.
Proof.
  split; [reflexivity|]. split; [reflexivity|].
  apply (proj2 (extract_team_name_plain "/data/SCRIPT_1_Real.Madrid.json")). reflexivity.
Defined.

(* ================================================================== *)
(** ** More on the header of a [.txt] file *)
(* ================================================================== *)

Section Strip.

Lemma occurs_lstrip (c : ascii) (s : string) :
  Py.occurs c (Py.lstrip s) = true -> Py.occurs c s = true.
Proof.
  induction s as [|d s IH]; simpl; intros H; [discriminate H|].
  destruct (Py.isspace d); [rewrite (IH H); apply orb_true_r | exact H].
Qed.

Lemma occurs_rstrip (c : ascii) (s : string) :
  Py.occurs c (Py.rstrip s) = true -> Py.occurs c s = true.
Proof.
  induction s as [|d s IH]; intros H; [discriminate H|].
  rewrite rstrip_cons in H. simpl Py.occurs.
  destruct (Py.rstrip s) as [|e r].
  - destruct (Py.isspace d); simpl in H; [discriminate H|].
    rewrite orb_false_r in H. rewrite H. reflexivity.
  - cbn [Py.occurs] in H. apply orb_true_iff in H. destruct H as [H|H].
    + rewrite H. reflexivity.
    + rewrite (IH H). apply orb_true_r.
Qed.

Lemma lstrip_idem (s : string) : Py.lstrip (Py.lstrip s) = Py.lstrip s.
Proof.
  induction s as [|d s IH]; [reflexivity|].
  simpl. destruct (Py.isspace d) eqn:E; [exact IH|]. simpl. rewrite E. reflexivity.
Qed.

Lemma rstrip_idem (s : string) : Py.rstrip (Py.rstrip s) = Py.rstrip s.
Proof.
  induction s as [|d s IH]; [reflexivity|].
  rewrite (rstrip_cons d s). destruct (Py.rstrip s) as [|e r] eqn:R.
  - destruct (Py.isspace d) eqn:E; [reflexivity|]. simpl. rewrite E. reflexivity.
  - rewrite rstrip_cons, IH. reflexivity.
Qed.

(** What [rstrip] leaves stays as it is when [lstrip] has cut its front. *)
Lemma rstrip_lstrip_fixed (y : string) :
  Py.rstrip y = y -> Py.rstrip (Py.lstrip y) = Py.lstrip y.
Proof.
  induction y as [|d y IH]; intros H; [reflexivity|].
  simpl Py.lstrip. destruct (Py.isspace d) eqn:E; [|exact H].
  apply IH. rewrite rstrip_cons, E in H.
  destruct (Py.rstrip y) as [|e r]; [discriminate H|]. inversion H. congruence.
Qed.

Lemma strip_idem (s : string) : Py.strip (Py.strip s) = Py.strip s.
Proof.
  unfold Py.strip. rewrite (rstrip_lstrip_fixed (Py.rstrip s) (rstrip_idem s)).
  apply lstrip_idem.
Qed.

End Strip.

(** X14. The column names the [.txt] branch of [read] takes from the
    first line: there is at least one, none holds a [|], and none has
    white space left at either end. *)
Theorem txt_names_clean (text : string) :
  Txt.names text <> []
  /\ Forall (fun c => Py.occurs Txt.bar c = false /\ Py.strip c = c) (Txt.names text).
Proof.
  unfold Txt.names. set (header := Py.strip (Txt.readline text)). split.
  - intros H. apply map_eq_nil in H. exact (split_nonempty _ _ H).
  - apply Forall_forall. intros c Hc. apply in_map_iff in Hc. destruct Hc as [p [<- Hp]].
    split; [|apply strip_idem].
    destruct (Py.occurs Txt.bar (Py.strip p)) eqn:E; [|reflexivity].
    unfold Py.strip in E. apply occurs_lstrip, occurs_rstrip in E.
    rewrite (split_piece_no_sep Txt.bar header p Hp) in E. discriminate E.
Qed.

(* ================================================================== *)
(** ** The presentation layer *)

(* ================================================================== *)
(** ** The presentation layer *)
(* ================================================================== *)

Section Window.

Variable W : World.
Variable to_string : DataFrame -> string.

Local Abbreviation handle := (Gui.handle W to_string).
Local Abbreviation update_status := (Gui.update_status to_string).
Local Abbreviation preview_merge := (Gui.preview_merge to_string).

(** What [preview_merge] leaves alone: everything but the global
    preview and the message boxes. *)
Lemma preview_merge_keeps (g : Gui.MergerGUI) :
  Gui.dm (preview_merge g) = Gui.dm g
  /\ Gui.output_folder (preview_merge g) = Gui.output_folder g
  /\ Gui.file_cards (preview_merge g) = Gui.file_cards g
  /\ Gui.btn_merge (preview_merge g) = Gui.btn_merge g
  /\ Gui.out_lbl (preview_merge g) = Gui.out_lbl g
  /\ Gui.status_lbl (preview_merge g) = Gui.status_lbl g
  /\ Gui.theme (preview_merge g) = Gui.theme g
  /\ Gui.style_theme (preview_merge g) = Gui.style_theme g
  /\ (forall b, In b (Gui.boxes g) -> In b (Gui.boxes (preview_merge g))).
Proof.
  unfold Gui.preview_merge. pose proof (merge_all_pure (Gui.dm g)) as P.
  destruct (merge_all (Gui.dm g)) as [[merged|e] m']; cbn [snd] in P; subst m'; cbn;
    repeat (split; [reflexivity|]); intros b Hb; [exact Hb|].
  apply in_or_app. left. exact Hb.
Qed.

Lemma update_status_keeps (g : Gui.MergerGUI) :
  Gui.dm (update_status g) = Gui.dm g
  /\ Gui.output_folder (update_status g) = Gui.output_folder g
  /\ Gui.file_cards (update_status g) = Gui.file_cards g
  /\ Gui.status_lbl (update_status g) = Gui.status_lbl g
  /\ Gui.theme (update_status g) = Gui.theme g
  /\ Gui.style_theme (update_status g) = Gui.style_theme g
  /\ (forall b, In b (Gui.boxes g) -> In b (Gui.boxes (update_status g))).
Proof.
  unfold Gui.update_status. cbn zeta.
  match goal with |- context [if ?c then preview_merge ?g2 else _] =>
    destruct c; [destruct (preview_merge_keeps g2) as [A [B [C [_ [_ [D [E [F G]]]]]]]];
                 rewrite A, B, C, D, E, F; cbn; repeat (split; [reflexivity|]);
                 intros b Hb; apply G; exact Hb
                |cbn; repeat (split; [reflexivity|]); intros b Hb; exact Hb]
  end.
Qed.

Lemma update_status_consistent (g : Gui.MergerGUI) : Gui.consistent (update_status g).
Proof.
  unfold Gui.update_status. cbn zeta.
  set (n := List.length (dfs (self (Gui.dm g)))).
  set (g2 := Gui.set_out_lbl _ _).
  assert (C : Gui.consistent g2).
  { unfold Gui.consistent, g2.
    cbn [Gui.btn_merge Gui.set_out_lbl Gui.set_btn_merge Gui.dm Gui.output_folder Gui.out_lbl].
    fold n. split.
    - destruct (2 <=? n)%nat eqn:L; destruct (String.eqb (Gui.output_folder g) "") eqn:F;
        cbn [andb negb].
      + apply String.eqb_eq in F. split; [intros H; discriminate H | intros [_ H]; congruence].
      + apply Nat.leb_le in L. apply String.eqb_neq in F. split; [auto | reflexivity].
      + apply Nat.leb_gt in L. split; [intros H; discriminate H | intros [H _]; lia].
      + apply Nat.leb_gt in L. split; [intros H; discriminate H | intros [H _]; lia].
    - destruct (String.eqb (Gui.output_folder g) ""); reflexivity. }
  match goal with |- context [if ?c then _ else _] => destruct c end; [|exact C].
  destruct (preview_merge_keeps g2) as [A [B [_ [D [E _]]]]].
  unfold Gui.consistent in *. rewrite A, B, D, E. exact C.
Qed.

(** What a merge leaves alone. *)
Lemma start_merge_keeps (g : Gui.MergerGUI) :
  self (Gui.dm (Gui.start_merge W g)) = self (Gui.dm g)
  /\ Gui.output_folder (Gui.start_merge W g) = Gui.output_folder g
  /\ Gui.btn_merge (Gui.start_merge W g) = Gui.btn_merge g
  /\ Gui.out_lbl (Gui.start_merge W g) = Gui.out_lbl g
  /\ Gui.file_cards (Gui.start_merge W g) = Gui.file_cards g
  /\ Gui.theme (Gui.start_merge W g) = Gui.theme g
  /\ Gui.style_theme (Gui.start_merge W g) = Gui.style_theme g
  /\ Gui.status_lbl (Gui.start_merge W g) = Gui.Ready.
Proof.
  unfold Gui.start_merge, Gui.do_merge, Gui.do_merge_try. cbn zeta.
  cbn [Gui.dm Gui.set_status_lbl].
  pose proof (merge_all_pure (Gui.dm g)) as P.
  destruct (merge_all (Gui.dm g)) as [[merged|e] m']; cbn [snd] in P; subst m'.
  - cbn [Gui.dm Gui.set_dm Gui.set_status_lbl Gui.output_folder].
    pose proof (save_self W (Gui.output_folder g) (Gui.dm g)) as S.
    destruct (save W (Gui.output_folder g) (Gui.dm g)) as [[u|e] m'']; cbn [snd] in S; cbn;
      rewrite S; repeat split.
  - cbn. repeat split.
Qed.

Lemma handle_consistent (g : Gui.MergerGUI) (ev : Gui.event) :
  Gui.consistent g -> Gui.consistent (handle g ev).
Proof.
  intros C. destruct ev as [idx path|folder| | |]; cbn [Gui.handle].
  - unfold Gui.choose_file. destruct (String.eqb path ""); [exact C|].
    apply update_status_consistent.
  - unfold Gui.choose_output. destruct (String.eqb folder ""); [exact C|].
    apply update_status_consistent.
  - unfold Gui.click_merge. destruct (Gui.btn_merge g) eqn:B; [|exact C].
    destruct (start_merge_keeps g) as [A [F [B' [O _]]]].
    unfold Gui.consistent in *. rewrite A, F, B', O. exact C.
  - apply update_status_consistent.
  - exact C.
Qed.

Lemma registry_ok_self (m m' : Machine) :
  self m' = self m -> registry_ok m -> registry_ok m'.
Proof.
  intros E H. unfold registry_ok, named_after_source in *. rewrite E. exact H.
Qed.

Lemma choose_file_try_dm (idx : nat) (path : string) (g : Gui.MergerGUI) :
  Gui.dm (Gui.choose_file_try W to_string idx path g) = snd (add_file W path (Gui.dm g)).
Proof.
  unfold Gui.choose_file_try.
  destruct (add_file W path (Gui.dm g)) as [[u|e] m']; [|reflexivity].
  cbn zeta. cbn [Gui.file_cards Gui.set_dm].
  destruct (nth_error (Gui.file_cards g) idx) as [c|]; [|reflexivity].
  cbn [Gui.dm Gui.set_file_cards Gui.set_dm].
  destruct (nth_error (dfs (self m')) idx); reflexivity.
Qed.

Lemma handle_registry_ok (g : Gui.MergerGUI) (ev : Gui.event) :
  registry_ok (Gui.dm g) -> registry_ok (Gui.dm (handle g ev)).
Proof.
  intros H. destruct ev as [idx path|folder| | |]; cbn [Gui.handle].
  - unfold Gui.choose_file. destruct (String.eqb path ""); [exact H|].
    destruct (update_status_keeps (Gui.choose_file_try W to_string idx path g)) as [A _].
    rewrite A, choose_file_try_dm.
    apply (registry_ok_step W (Gui.dm g) (AddFile path) H).
  - unfold Gui.choose_output. destruct (String.eqb folder ""); [exact H|].
    destruct (update_status_keeps (Gui.set_output_folder folder g)) as [A _].
    rewrite A. exact H.
  - unfold Gui.click_merge. destruct (Gui.btn_merge g); [|exact H].
    destruct (start_merge_keeps g) as [A _]. exact (registry_ok_self _ _ A H).
  - unfold Gui.reset_all. cbn zeta.
    match goal with |- registry_ok (Gui.dm (update_status ?x)) =>
      destruct (update_status_keeps x) as [A _]; rewrite A end.
    cbn. apply (registry_ok_step W (Gui.dm g) ResetAll H).
  - exact H.
Qed.

Lemma session_invariants (events : list Gui.event) :
  forall g, Gui.consistent g -> registry_ok (Gui.dm g) ->
  Gui.consistent (fold_left handle events g)
  /\ registry_ok (Gui.dm (fold_left handle events g)).
Proof.
  induction events as [|ev events IH]; intros g C R; [split; assumption|].
  cbn [fold_left]. apply IH; [apply handle_consistent | apply handle_registry_ok]; assumption.
Qed.

Lemma init_invariants :
  Gui.consistent (Gui.init to_string) /\ registry_ok (Gui.dm (Gui.init to_string)).
Proof.
  split; [apply update_status_consistent|].
  unfold Gui.init. destruct (update_status_keeps Gui.built) as [A _]. rewrite A.
  apply registry_ok_fresh.
Qed.

(** What [update_status] does to the message boxes and to the global
    preview. *)
Lemma update_status_preview (g : Gui.MergerGUI) :
  Gui.boxes (update_status g) = (Gui.boxes g ++ preview_boxes (Gui.dm g))%list
  /\ Gui.global_preview (update_status g)
     = if (2 <=? List.length (dfs (self (Gui.dm g))))%nat
       then match fst (merge_all (Gui.dm g)) with
            | Ok merged => to_string (Gui.head merged)
            | Raise _ => Gui.global_preview g
            end
       else Gui.global_preview g.
Proof.
  unfold Gui.update_status, preview_boxes. cbn zeta.
  cbn [Gui.dm Gui.set_out_lbl Gui.set_btn_merge].
  destruct (2 <=? List.length (dfs (self (Gui.dm g))))%nat.
  - unfold Gui.preview_merge. cbn [Gui.dm Gui.set_out_lbl Gui.set_btn_merge].
    destruct (merge_all (Gui.dm g)) as [[merged|e] m']; cbn.
    + rewrite app_nil_r. split; reflexivity.
    + split; reflexivity.
  - cbn. rewrite app_nil_r. split; reflexivity.
Qed.

End Window.

Lemma add_file_ok (W : World) (path : string) (df : DataFrame) (m : Machine) :
  read W path = Ok df -> has_ID df -> add_file W path m = (Ok tt, added path df m).
Proof.
  intros R K.
  destruct (add_file_cases W path m) as [[e [_ [R'|[df' [R' [K' _]]]]]]|[df' [R' [_ E]]]].
  - congruence.
  - unfold has_ID, lacks_ID in *. congruence.
  - congruence.
Qed.

Lemma nth_error_replace_card (c : Gui.card) (cs : list Gui.card) :
  forall idx, idx < List.length cs -> nth_error (Gui.replace_card idx c cs) idx = Some c.
Proof.
  induction cs as [|c0 cs IH]; intros idx H; simpl in H; [lia|].
  destruct idx as [|i]; simpl; [reflexivity|]. apply IH. lia.
Qed.

Lemma replace_card_length (c : Gui.card) (cs : list Gui.card) :
  forall idx, List.length (Gui.replace_card idx c cs) = List.length cs.
Proof.
  induction cs as [|c0 cs IH]; intros idx; [destruct idx; reflexivity|].
  destruct idx as [|i]; simpl; [reflexivity|]. rewrite IH. reflexivity.
Qed.

Section WindowTheorems.

Variable W : World.
Variable to_string : DataFrame -> string.

(** X15. In every state of a session, the merge button is enabled exactly
    when at least two files are registered and an output folder is
    chosen, and the folder label shows the chosen folder, if any. *)
Theorem merge_button_enabled (events : list Gui.event) :
  let g := Gui.session W to_string events in
  (Gui.btn_merge g = Gui.NORMAL <->
   2 <= List.length (dfs (self (Gui.dm g))) /\ Gui.output_folder g <> "")
  /\ Gui.out_lbl g = (if String.eqb (Gui.output_folder g) ""
                      then Gui.NotSelected else Gui.FolderName (Gui.output_folder g)).
Proof.
  destruct (init_invariants to_string) as [C R].
  exact (proj1 (session_invariants W to_string events _ C R)).
Qed.


(** X16. A click on the enabled merge button never ends in the success
    box: it ends with the status [Ready], the registry untouched, and
    exactly one more box, the error box [Failed].  When the merge raises,
    the box shows its message and the disk is as it was; so it is when
    the chosen folder is no directory, with the text of
    [InvalidOutputFolder]; with a directory and a disk that takes the
    [.xlsx] file, the box shows the [TypeError] of [to_json] and the
    [.xlsx] file holds the merged table. *)
Theorem click_merge_outcome (g : Gui.MergerGUI) :
  Gui.btn_merge g = Gui.NORMAL ->
  let g' := Gui.click_merge W g in
  let failed (e : exn) :=
    Gui.boxes g' = (Gui.boxes g ++ [Gui.showerror "Failed" (exn_str e)])%list in
  let xlsx := output_base W (Gui.output_folder g) (Gui.dm g) ++ ".xlsx" in
  Gui.status_lbl g' = Gui.Ready
  /\ self (Gui.dm g') = self (Gui.dm g)
  /\ (exists e, failed e)
  /\ (forall e, fst (merge_all (Gui.dm g)) = Raise e ->
        failed e /\ disk (Gui.dm g') = disk (Gui.dm g))
  /\ (forall merged, fst (merge_all (Gui.dm g)) = Ok merged ->
        (isdir W (Gui.output_folder g) = false ->
         failed InvalidOutputFolder /\ disk (Gui.dm g') = disk (Gui.dm g))
        /\ (isdir W (Gui.output_folder g) = true ->
            write_error W xlsx (Excel merged) = None ->
            failed unexpected_encoding
            /\ file xlsx (disk (Gui.dm g')) = Some (Excel merged))).
Proof.
  intros B g' failed xlsx.
  assert (G : g' = Gui.start_merge W g) by (unfold g', Gui.click_merge; rewrite B; reflexivity).
  destruct (start_merge_keeps W g) as [A [_ [_ [_ [_ [_ [_ S]]]]]]].
  unfold failed. rewrite G. split; [exact S|]. split; [exact A|].
  unfold Gui.start_merge, Gui.do_merge, Gui.do_merge_try. cbn zeta.
  cbn [Gui.dm Gui.set_status_lbl].
  pose proof (merge_all_pure (Gui.dm g)) as P.
  destruct (merge_all (Gui.dm g)) as [[merged|e] m'] eqn:Hm; cbn [snd] in P; subst m';
    cbn [fst].
  - cbn [Gui.dm Gui.set_dm Gui.set_status_lbl Gui.output_folder].
    rewrite save_outcome, Hm. cbn [fst]. fold xlsx.
    split; [|split].
    + destruct (negb (isdir W (Gui.output_folder g))); [eexists; reflexivity|].
      destruct (write_error W xlsx (Excel merged)); eexists; reflexivity.
    + intros e H. discriminate H.
    + intros merged' H. inversion H; subst merged'. split.
      * intros D. rewrite D. cbn. split; reflexivity.
      * intros D Hw. rewrite D, Hw. cbn. split; [reflexivity|].
        rewrite file_store, String.eqb_refl. reflexivity.
  - split; [|split].
    + eexists. reflexivity.
    + intros e' H. inversion H; subst e'. cbn. split; reflexivity.
    + intros merged H. discriminate H.
Qed.


(** X17. [choose_file] never replaces a file: whatever card it is called
    for, a file that loads with an ID column is appended to the registry.
    The card then shows the file name, and as preview the frame at the
    position of the card in the registry: the chosen file when the card
    is the next free position, an older file when the position is taken,
    and nothing, with an "index out of range" error box, when the
    position is beyond the registry. *)
Theorem choose_file_appends (g : Gui.MergerGUI) (idx : nat) (path : string) (df : DataFrame) :
  path <> "" ->
  read W path = Ok df ->
  has_ID df ->
  idx < List.length (Gui.file_cards g) ->
  let g' := Gui.choose_file W to_string idx path g in
  let n := List.length (dfs (self (Gui.dm g))) in
  let shows (text : string) :=
    nth_error (Gui.file_cards g') idx
    = Some {| Gui.lbl := Gui.FileName (Py.basename path); Gui.preview := text |} in
  dfs (self (Gui.dm g')) = (dfs (self (Gui.dm g)) ++ [df])%list
  /\ paths (self (Gui.dm g')) = (paths (self (Gui.dm g)) ++ [path])%list
  /\ (idx = n -> shows (to_string (Gui.head df)))
  /\ (forall old, nth_error (dfs (self (Gui.dm g))) idx = Some old ->
        shows (to_string (Gui.head old)))
  /\ (n < idx -> shows "" /\ In (Gui.showerror "Error" Gui.index_error) (Gui.boxes g')).
Proof.
  intros Hp R K Hidx g' n shows.
  assert (G : g' = Gui.update_status to_string (Gui.choose_file_try W to_string idx path g)).
  { unfold g', Gui.choose_file. apply String.eqb_neq in Hp. rewrite Hp. reflexivity. }
  destruct (update_status_keeps to_string (Gui.choose_file_try W to_string idx path g))
    as [Udm [_ [Ucards [_ [_ [_ Uboxes]]]]]].
  assert (Hdm : Gui.dm g' = added path df (Gui.dm g)).
  { rewrite G, Udm, choose_file_try_dm, (add_file_ok W path df _ R K). reflexivity. }
  split; [rewrite Hdm; reflexivity|]. split; [rewrite Hdm; reflexivity|].
  destruct (nth_error (Gui.file_cards g) idx) as [c|] eqn:Ec;
    [|apply nth_error_None in Ec; lia].
  assert (T : forall shown,
            nth_error (dfs (self (Gui.dm g)) ++ [df])%list idx = shown ->
            match shown with
            | Some d => shows (to_string (Gui.head d))
            | None => shows "" /\ In (Gui.showerror "Error" Gui.index_error) (Gui.boxes g')
            end).
  { intros shown Hs. unfold shows. rewrite G, Ucards.
    unfold Gui.choose_file_try in *. rewrite (add_file_ok W path df _ R K) in *.
    cbn zeta in *. cbn [Gui.file_cards Gui.set_dm] in *. rewrite Ec in *.
    cbn [Gui.dm Gui.set_file_cards Gui.set_dm added self dfs] in *. rewrite Hs in *.
    destruct shown as [d|].
    - cbn [Gui.file_cards Gui.set_file_cards Gui.lbl Gui.preview String.append].
      apply nth_error_replace_card. rewrite replace_card_length. exact Hidx.
    - split.
      + cbn [Gui.file_cards Gui.show Gui.set_file_cards].
        apply nth_error_replace_card. exact Hidx.
      + apply Uboxes. cbn [Gui.boxes Gui.show]. apply in_or_app. right. left. reflexivity. }
  split; [|split].
  - intros ->. apply (T (Some df)). unfold n. rewrite nth_error_app2, Nat.sub_diag by lia.
    reflexivity.
  - intros old Ho. apply (T (Some old)).
    rewrite nth_error_app1; [exact Ho|]. apply nth_error_Some. congruence.
  - intros Hn. apply (T None). apply nth_error_None. rewrite length_app. simpl. fold n. lia.
Qed.

(** X18. The reset of the window empties the registry and the previews,
    blanks every card and disables the merge button, but keeps the chosen
    output folder, which the folder label goes on showing; files on disk
    and message boxes stay; a second reset changes nothing. *)
Theorem reset_all_clears (g : Gui.MergerGUI) :
  let g' := Gui.reset_all to_string g in
  self (Gui.dm g') = init
  /\ disk (Gui.dm g') = disk (Gui.dm g)
  /\ Gui.file_cards g'
     = map (fun _ => {| Gui.lbl := Gui.NotSelected; Gui.preview := "" |}) (Gui.file_cards g)
  /\ Gui.global_preview g' = ""
  /\ Gui.btn_merge g' = Gui.DISABLED
  /\ Gui.output_folder g' = Gui.output_folder g
  /\ Gui.out_lbl g' = (if String.eqb (Gui.output_folder g) ""
                       then Gui.NotSelected else Gui.FolderName (Gui.output_folder g))
  /\ Gui.boxes g' = Gui.boxes g
  /\ Gui.reset_all to_string g' = g'.
Proof.
  cbn zeta. unfold Gui.reset_all, Gui.update_status. cbn.
  repeat (split; [try reflexivity; destruct (String.eqb (Gui.output_folder g) ""); reflexivity|]).
  rewrite map_map. destruct (String.eqb (Gui.output_folder g) ""); reflexivity.
Qed.

(** X19. In every state of a session the theme in use is the theme of the
    configuration, it is one of [superhero] and [flatly], and two
    toggles in a row bring it back. *)
Theorem theme_toggles (events : list Gui.event) :
  let g := Gui.session W to_string events in
  Gui.style_theme g = Gui.theme g
  /\ (Gui.theme g = "superhero" \/ Gui.theme g = "flatly")
  /\ Gui.toggle_theme (Gui.toggle_theme g) = g.
Proof.
  cbn zeta.
  assert (Inv : forall evs g,
            (Gui.style_theme g = Gui.theme g
             /\ (Gui.theme g = "superhero" \/ Gui.theme g = "flatly")) ->
            Gui.style_theme (fold_left (Gui.handle W to_string) evs g)
            = Gui.theme (fold_left (Gui.handle W to_string) evs g)
            /\ (Gui.theme (fold_left (Gui.handle W to_string) evs g) = "superhero"
                \/ Gui.theme (fold_left (Gui.handle W to_string) evs g) = "flatly")).
  { induction evs as [|ev evs IH]; intros g H; [exact H|].
    cbn [fold_left]. apply IH. destruct ev as [idx path|folder| | |]; cbn [Gui.handle].
    - unfold Gui.choose_file. destruct (String.eqb path ""); [exact H|].
      destruct (update_status_keeps to_string (Gui.choose_file_try W to_string idx path g))
        as [_ [_ [_ [_ [Ht Hs]]]]].
      destruct Hs as [Hs _]. rewrite Ht, Hs.
      unfold Gui.choose_file_try.
      destruct (add_file W path (Gui.dm g)) as [[u|e] m']; [|exact H].
      cbn zeta. cbn [Gui.file_cards Gui.set_dm].
      destruct (nth_error (Gui.file_cards g) idx); [|exact H].
      cbn [Gui.dm Gui.set_file_cards Gui.set_dm].
      destruct (nth_error (dfs (self m')) idx); exact H.
    - unfold Gui.choose_output. destruct (String.eqb folder ""); [exact H|].
      destruct (update_status_keeps to_string (Gui.set_output_folder folder g))
        as [_ [_ [_ [_ [Ht [Hs _]]]]]].
      rewrite Ht, Hs. exact H.
    - unfold Gui.click_merge. destruct (Gui.btn_merge g); [|exact H].
      destruct (start_merge_keeps W g) as [_ [_ [_ [_ [_ [Ht [Hs _]]]]]]].
      rewrite Ht, Hs. exact H.
    - unfold Gui.reset_all. cbn zeta.
      match goal with |- context [Gui.update_status to_string ?x] =>
        destruct (update_status_keeps to_string x) as [_ [_ [_ [_ [Ht [Hs _]]]]]] end.
      rewrite Ht, Hs. exact H.
    - unfold Gui.toggle_theme. cbn. split; [reflexivity|].
      destruct (String.eqb (Gui.style_theme g) "flatly"); [left | right]; reflexivity. }
  assert (I0 : Gui.style_theme (Gui.init to_string) = Gui.theme (Gui.init to_string)
               /\ (Gui.theme (Gui.init to_string) = "superhero"
                   \/ Gui.theme (Gui.init to_string) = "flatly")).
  { split; [reflexivity | left; reflexivity]. }
  destruct (Inv events _ I0) as [Hs Ht]. fold (Gui.session W to_string events) in Hs, Ht.
  split; [exact Hs|]. split; [exact Ht|].
  destruct (Gui.session W to_string events) as [dm0 f0 th st cards o gp sl b bx].
  cbn in Hs, Ht. subst st. unfold Gui.toggle_theme, Gui.set_themes. cbn.
  destruct Ht as [-> | ->]; reflexivity.
Qed.

End WindowTheorems.

Lemma click_merge_outcome_witness :
  Gui.btn_merge (Gui.session W0 labels_line two_files_and_folder) = Gui.NORMAL
  /\ Gui.boxes (Gui.click_merge W0 (Gui.session W0 labels_line two_files_and_folder))
     = [Gui.showerror "Failed"
          "NDFrame.to_json() got an unexpected keyword argument 'encoding'"]
  /\ file "/out/Data_Ajax_20250704.xlsx"
       (disk (Gui.dm (Gui.click_merge W0 (Gui.session W0 labels_line two_files_and_folder))))
     = Some (Excel players_ratings).
Proof.
  split; [reflexivity|].
  destruct (click_merge_outcome W0 (Gui.session W0 labels_line two_files_and_folder) eq_refl)
    as [_ [_ [_ [_ H]]]].
  exact (proj2 (H players_ratings eq_refl) eq_refl eq_refl).
Defined.

Lemma choose_file_appends_witness :
  read W0 "/data/SCRIPT_1_Ajax.json" = Ok players_a
  /\ dfs (self (Gui.dm (Gui.choose_file W0 labels_line 1 "/data/SCRIPT_1_Ajax.json"
                          (Gui.init labels_line))))
     = [players_a]
  /\ In (Gui.showerror "Error" "list index out of range")
        (Gui.boxes (Gui.choose_file W0 labels_line 1 "/data/SCRIPT_1_Ajax.json"
                      (Gui.init labels_line))).
Proof.
  split; [reflexivity|].
  destruct (choose_file_appends W0 labels_line (Gui.init labels_line) 1
              "/data/SCRIPT_1_Ajax.json" players_a
              ltac:(discriminate) eq_refl eq_refl ltac:(simpl; lia))
    as [Hd [_ [_ [_ Hbeyond]]]].
  split; [exact Hd|].
  apply Hbeyond. simpl. lia.
Defined.

Section Rejection.

Variable W : World.
Variable to_string : DataFrame -> string.

Lemma add_file_raise_state (path : string) (m m' : Machine) (e : exn) :
  add_file W path m = (Raise e, m') -> m' = m.
Proof.
  intros H. destruct (add_file_cases W path m) as [[e' [E _]]|[df [_ [_ E]]]]; congruence.
Qed.

Lemma set_dm_same (g : Gui.MergerGUI) : Gui.set_dm (Gui.dm g) g = g.
Proof. destruct g; reflexivity. Qed.

Lemma consistent_button (g g' : Gui.MergerGUI) :
  Gui.consistent g -> Gui.consistent g' ->
  self (Gui.dm g') = self (Gui.dm g) -> Gui.output_folder g' = Gui.output_folder g ->
  Gui.btn_merge g' = Gui.btn_merge g.
Proof.
  intros [C _] [C' _] Hs Hf. rewrite Hs, Hf in C'.
  destruct (Gui.btn_merge g), (Gui.btn_merge g'); try reflexivity.
  - assert (H : Gui.DISABLED = Gui.NORMAL) by (apply C', C; reflexivity). discriminate H.
  - assert (H : Gui.DISABLED = Gui.NORMAL) by (apply C, C'; reflexivity). discriminate H.
Qed.

(** X22. When [add_file] fails for the file chosen in a session, the
    registry, the cards and the merge button stay as they were.  An error
    box is shown with [str(e)] as its message; for a file without the ID
    column that message is the text [Column 'ID' not found.] between
    double quotes, since the [str] of a [KeyError] is the [repr] of its
    argument.  Then [update_status] runs the preview again: with two or
    more files registered, it shows the merged table once more, or, when
    their merge raises, a second box, [Preview Error]. *)
Theorem choose_file_rejects (events : list Gui.event) (idx : nat) (path : string) (e : exn) :
  let g := Gui.session W to_string events in
  path <> "" ->
  fst (add_file W path (Gui.dm g)) = Raise e ->
  let g' := Gui.choose_file W to_string idx path g in
  Gui.dm g' = Gui.dm g
  /\ Gui.file_cards g' = Gui.file_cards g
  /\ Gui.btn_merge g' = Gui.btn_merge g
  /\ Gui.boxes g'
     = (Gui.boxes g ++ [Gui.showerror "Error" (exn_str e)] ++ preview_boxes (Gui.dm g))%list
  /\ (List.length (dfs (self (Gui.dm g))) < 2 ->
      Gui.boxes g' = (Gui.boxes g ++ [Gui.showerror "Error" (exn_str e)])%list
      /\ Gui.global_preview g' = Gui.global_preview g)
  /\ (2 <= List.length (dfs (self (Gui.dm g))) ->
      (forall merged, fst (merge_all (Gui.dm g)) = Ok merged ->
         Gui.boxes g' = (Gui.boxes g ++ [Gui.showerror "Error" (exn_str e)])%list
         /\ Gui.global_preview g' = to_string (Gui.head merged))
      /\ (forall e', fst (merge_all (Gui.dm g)) = Raise e' ->
            Gui.boxes g'
            = (Gui.boxes g ++ [Gui.showerror "Error" (exn_str e);
                               Gui.showerror "Preview Error" (exn_str e')])%list
            /\ Gui.global_preview g' = Gui.global_preview g))
  /\ (e = MissingKeyColumn ->
      exn_str e = String Py.dquote ("Column 'ID' not found." ++ String Py.dquote "")).
Proof.
  intros g Hp Hfail g'.
  destruct (init_invariants to_string) as [C0 R0].
  destruct (session_invariants W to_string events _ C0 R0) as [C R].
  fold (Gui.session W to_string events) in C, R. fold g in C, R.
  assert (Hadd : add_file W path (Gui.dm g) = (Raise e, Gui.dm g)).
  { destruct (add_file W path (Gui.dm g)) as [r m'] eqn:E. cbn [fst] in Hfail. subst r.
    rewrite (add_file_raise_state path _ _ _ E). reflexivity. }
  set (g1 := Gui.show (Gui.showerror "Error" (exn_str e)) g).
  assert (Htry : Gui.choose_file_try W to_string idx path g = g1).
  { unfold Gui.choose_file_try. rewrite Hadd, set_dm_same. reflexivity. }
  assert (G : g' = Gui.update_status to_string g1).
  { unfold g', Gui.choose_file. apply String.eqb_neq in Hp. rewrite Hp, Htry. reflexivity. }
  destruct (update_status_keeps to_string g1) as [Udm [Uf [Ucards _]]].
  destruct (update_status_preview to_string g1) as [Ub Ug].
  cbn [g1 Gui.dm Gui.show Gui.boxes Gui.global_preview] in Ub, Ug.
  assert (Hdm : Gui.dm g' = Gui.dm g) by (rewrite G, Udm; reflexivity).
  rewrite <- G in Ub, Ug. rewrite <- app_assoc in Ub.
  split; [exact Hdm|]. split; [rewrite G, Ucards; reflexivity|].
  split.
  { apply consistent_button; [exact C | rewrite G; apply update_status_consistent| |].
    - rewrite Hdm. reflexivity.
    - rewrite G, Uf. reflexivity. }
  split; [exact Ub|]. split; [|split].
  - intros L. apply Nat.leb_gt in L. rewrite Ub, Ug. unfold preview_boxes. rewrite L.
    split; reflexivity.
  - intros L. apply Nat.leb_le in L. rewrite Ub, Ug. unfold preview_boxes. rewrite L. split.
    + intros merged Hm. rewrite Hm. split; reflexivity.
    + intros e' Hm. rewrite Hm. split; reflexivity.
  - intros ->. reflexivity.
Qed.

End Rejection.

Lemma choose_file_rejects_witness :
  fst (add_file W0 "/data/noid.json" (Gui.dm (Gui.session W0 labels_line [])))
  = Raise MissingKeyColumn
  /\ Gui.boxes (Gui.choose_file W0 labels_line 0 "/data/noid.json"
                  (Gui.session W0 labels_line []))
     = [Gui.showerror "Error" (String Py.dquote ("Column 'ID' not found." ++ String Py.dquote ""))].
Proof.
  split; [reflexivity|].
  destruct (choose_file_rejects W0 labels_line [] 0 "/data/noid.json"
              MissingKeyColumn ltac:(discriminate) eq_refl) as [_ [_ [_ [_ [H _]]]]].
  apply H. simpl. lia.
Defined.

(** A file is rejected while the two registered tables do not merge: the
    error box of the file is followed by the box of the preview. *)
Example reject_with_preview_error :
  Gui.boxes (Gui.choose_file W0 labels_line 0 "/data/noid.json"
               (Gui.session W0 labels_line
                  [Gui.ChooseFile 0 "/data/SCRIPT_1_Ajax.json";
                   Gui.ChooseFile 1 "/data/text_ids.json"]))
  = [Gui.showerror "Preview Error"
       "You are trying to merge on int64 and object columns for key 'ID'. If you wish to proceed you should use pd.concat";
     Gui.showerror "Error" (String Py.dquote ("Column 'ID' not found." ++ String Py.dquote ""));
     Gui.showerror "Preview Error"
       "You are trying to merge on int64 and object columns for key 'ID'. If you wish to proceed you should use pd.concat"].
Proof. vm_compute. reflexivity. Qed.
